(** * locallibrary/api.py: the catalog API handlers over an explicit store

    The handlers of [api.py] are embedded as functions from a store (the
    relational tables the ORM reads and writes) to a response and the store
    the request leaves behind.  Every handler is translated statement by
    statement; a Python [return status, body] is the pair [(status, body)].

    The lookups [Model.objects.get(id=...)] raise [DoesNotExist] and
    [uuid.UUID(...)] raises [ValueError]; both are caught where the source
    catches them.  No other operation inside a [try] raises in this model,
    so the broad [except Exception] clauses of the source have no path to
    them here.  Two failures lie outside every [try] and end in a 500: a
    function-level import of a name its module does not define
    ([get_token]), and a returned object that does not fit the response
    schema of its route ([respond]). *)

From Stdlib Require Import Ascii.
From stdpp Require Import base option list strings gmap pretty.

#[local] Set Warnings "-clear-no-such-hyp".

Local Open Scope Z_scope.

(** ** Values *)

(** [datetime.date]. *)
Record date := Date { year : Z; month : Z; day : Z }.

(** A [uuid.UUID] value, identified with its 128-bit integer [UUID.int]. *)
Abbreviation UUID := N.

(** ** catalog.models *)

(** Modelled from the spec: [catalog/models.py] is imported by [api.py] but
    is not part of the sources at hand.  The record kinds follow section 3 of
    the specification (DATA MODEL): a foreign key is kept as the identifier
    of the row it points to, an optional reference as an [option], and the
    many-to-many relation between Book and Genre as its own link table. *)
Module Author.
Record t := Build {
  first_name : string;
  last_name : string;
  date_of_birth : option date;
  date_of_death : option date;
}.
Definition set_first_name (v : string) (a : t) : t :=
  Build v (last_name a) (date_of_birth a) (date_of_death a).
Definition set_last_name (v : string) (a : t) : t :=
  Build (first_name a) v (date_of_birth a) (date_of_death a).
Definition set_date_of_birth (v : option date) (a : t) : t :=
  Build (first_name a) (last_name a) v (date_of_death a).
Definition set_date_of_death (v : option date) (a : t) : t :=
  Build (first_name a) (last_name a) (date_of_birth a) v.
End Author.

Module Genre.
Record t := Build { name : string }.
Definition set_name (v : string) (g : t) : t := Build v.
End Genre.

Module Language.
Record t := Build { name : string }.
Definition set_name (v : string) (l : t) : t := Build v.
End Language.

Module Book.
Record t := Build {
  title : string;
  summary : string;
  isbn : string;
  author : option Z;
  language : option Z;
}.
Definition set_title (v : string) (b : t) : t :=
  Build v (summary b) (isbn b) (author b) (language b).
Definition set_summary (v : string) (b : t) : t :=
  Build (title b) v (isbn b) (author b) (language b).
Definition set_isbn (v : string) (b : t) : t :=
  Build (title b) (summary b) v (author b) (language b).
Definition set_author (v : option Z) (b : t) : t :=
  Build (title b) (summary b) (isbn b) v (language b).
Definition set_language (v : option Z) (b : t) : t :=
  Build (title b) (summary b) (isbn b) (author b) v.
End Book.

Module BookInstance.
Record t := Build {
  book : Z;
  imprint : string;
  due_back : option date;
  borrower : option Z;
  status : string;
}.
Definition set_book (v : Z) (i : t) : t :=
  Build v (imprint i) (due_back i) (borrower i) (status i).
Definition set_imprint (v : string) (i : t) : t :=
  Build (book i) v (due_back i) (borrower i) (status i).
Definition set_due_back (v : option date) (i : t) : t :=
  Build (book i) (imprint i) v (borrower i) (status i).
Definition set_borrower (v : option Z) (i : t) : t :=
  Build (book i) (imprint i) (due_back i) v (status i).
Definition set_status (v : string) (i : t) : t :=
  Build (book i) (imprint i) (due_back i) (borrower i) v.
End BookInstance.

(** ** Request schemas (api.py, lines 16-133) *)

Module AuthorUpdateSchema.
Record t := Build {
  first_name : option string;
  last_name : option string;
  date_of_birth : option date;
  date_of_death : option date;
}.
End AuthorUpdateSchema.

Module GenreUpdateSchema.
Record t := Build { name : option string }.
End GenreUpdateSchema.

Module LanguageUpdateSchema.
Record t := Build { name : option string }.
End LanguageUpdateSchema.

Module BookCreateSchema.
Record t := Build {
  title : string;
  summary : string;
  isbn : string;
  author_id : option Z;
  language_id : option Z;
  genre_ids : list Z;
}.
End BookCreateSchema.

Module BookUpdateSchema.
Record t := Build {
  title : option string;
  summary : option string;
  isbn : option string;
  author_id : option Z;
  language_id : option Z;
  genre_ids : option (list Z);
}.
End BookUpdateSchema.

Module BookInstanceCreateSchema.
Record t := Build {
  book_id : Z;
  imprint : string;
  due_back : option date;
  borrower_id : option Z;
  status : string;
}.
End BookInstanceCreateSchema.

Module BookInstanceUpdateSchema.
Record t := Build {
  book_id : option Z;
  imprint : option string;
  due_back : option date;
  borrower_id : option Z;
  status : option string;
}.
End BookInstanceUpdateSchema.

Module LoginInput.
Record t := Build { username : string; password : string }.
End LoginInput.

(** ** Responses *)

(** The second component of a handler's [return status, body]: a model
    object (its primary key and its row), an [ErrorSchema], a [TokenOutput]
    or [None]; [Detail] is the body the framework itself sends when the
    authentication callable rejects a request, and [Unhandled] stands for
    the server error sent when an exception of the named class is caught by
    nothing. *)
Inductive Body :=
  | AuthorOut (id : Z) (row : Author.t)
  | GenreOut (id : Z) (row : Genre.t)
  | LanguageOut (id : Z) (row : Language.t)
  | BookOut (id : Z) (row : Book.t)
  | BookInstanceOut (id : UUID) (row : BookInstance.t)
  | ErrorSchema (message : string)
  | TokenOutput (access_token : string)
  | Detail (detail : string)
  | NoContent
  | Unhandled (exception : string).

Definition Response : Type := Z * Body.

Definition status_code (r : Response) : Z := fst r.

(** ** The persistent store *)

Record Store := MkStore {
  authors : gmap Z Author.t;
  genres : gmap Z Genre.t;
  languages : gmap Z Language.t;
  books : gmap Z Book.t;
  book_genre : gset (Z * Z);            (* link rows (book id, genre id) *)
  bookinstances : gmap N BookInstance.t;
  users : gset Z;                       (* identifiers of the User rows *)
}.

Definition set_authors (f : gmap Z Author.t → gmap Z Author.t) (s : Store) : Store :=
  MkStore (f (authors s)) (genres s) (languages s) (books s) (book_genre s)
          (bookinstances s) (users s).

Definition set_genres (f : gmap Z Genre.t → gmap Z Genre.t) (s : Store) : Store :=
  MkStore (authors s) (f (genres s)) (languages s) (books s) (book_genre s)
          (bookinstances s) (users s).

Definition set_languages (f : gmap Z Language.t → gmap Z Language.t) (s : Store) : Store :=
  MkStore (authors s) (genres s) (f (languages s)) (books s) (book_genre s)
          (bookinstances s) (users s).

Definition set_books (f : gmap Z Book.t → gmap Z Book.t) (s : Store) : Store :=
  MkStore (authors s) (genres s) (languages s) (f (books s)) (book_genre s)
          (bookinstances s) (users s).

Definition set_book_genre (f : gset (Z * Z) → gset (Z * Z)) (s : Store) : Store :=
  MkStore (authors s) (genres s) (languages s) (books s) (f (book_genre s))
          (bookinstances s) (users s).

Definition set_bookinstances
    (f : gmap N BookInstance.t → gmap N BookInstance.t) (s : Store) : Store :=
  MkStore (authors s) (genres s) (languages s) (books s) (book_genre s)
          (f (bookinstances s)) (users s).

Definition empty_store : Store := MkStore ∅ ∅ ∅ ∅ ∅ ∅ ∅.

(** ** ORM operations used by the handlers *)

(** The key given to a row inserted without one.  It stands for the
    database's choice of a key that is not in use, and is computed here as one
    more than the largest key in use (1 in an empty table).  A database that
    counts with a sequence agrees with this as long as the row with the
    largest key has not been deleted, and hands out a larger key afterwards;
    the store carries no such counter.  The statements below rest on the key
    not being in use ([next_id_fresh]). *)
Definition next_id {A} (m : gmap Z A) : Z :=
  1 + map_fold (λ k _ acc, Z.max k acc) 0 m.

(** [book.save()] on an object built by [Book(...)]: inserts the row and
    gives the object its key. *)
Definition Book_insert (s : Store) (book : Book.t) : Z * Store :=
  let book_id := next_id (books s) in
  (book_id, set_books (insert book_id book) s).

(** [book.genre.add(genre)]. *)
Definition genre_add (book_id genre_id : Z) (s : Store) : Store :=
  set_book_genre (λ links, {[ (book_id, genre_id) ]} ∪ links) s.

(** [book.genre.clear()]. *)
Definition genre_clear (book_id : Z) (s : Store) : Store :=
  set_book_genre (filter (λ link, link.1 ≠ book_id)) s.

(** ** Control flow inside a handler *)

(** A statement either falls through with a value or leaves the handler
    with [return status, body]. *)
Inductive flow (A : Type) :=
  | Continue (a : A)
  | Return (r : Response).
Arguments Continue {A} a.
Arguments Return {A} r.

(** Python truthiness of an [int]: only [0] is false ([None], the other
    value of an [Optional[int]], is false as well and is the [None] branch of
    the [match] around each use). *)
Definition truthy (n : Z) : bool := bool_decide (n ≠ 0).

(** [if value is not None: obj.field = value]. *)
Definition assign {A B} (value : option B) (set : B → A → A) (obj : A) : A :=
  match value with
  | Some v => set v obj
  | None => obj
  end.

Definition not_found (kind : string) (id : Z) : Body :=
  ErrorSchema (kind +:+ " with ID " +:+ pretty id +:+ " not found").

(** ** Book routes *)

(** The loop [for genre_id in genre_ids: ... book.genre.add(genre)] shared by
    [create_book] (lines 321-326) and [update_book] (lines 365-370): links
    are added one by one, and the first identifier without a Genre row leaves
    the handler; the links added before it stay. *)
Fixpoint add_genres (book_id : Z) (genre_ids : list Z) (s : Store) : flow unit * Store :=
  match genre_ids with
  | [] => (Continue (), s)
  | genre_id :: rest =>
      match genres s !! genre_id with
      | Some _ => add_genres book_id rest (genre_add book_id genre_id s)
      | None => (Return (400, not_found "Genre" genre_id), s)
      end
  end.

(** [create_book] (lines 294-330).  The guard [if payload.genre_ids:] of line
    320 skips the loop for the empty list, on which the loop does nothing. *)
Definition create_book (payload : BookCreateSchema.t) (s : Store) : Response * Store :=
  let book :=
    Book.Build (BookCreateSchema.title payload) (BookCreateSchema.summary payload)
               (BookCreateSchema.isbn payload) None None in
  let set_author : flow Book.t :=
    match BookCreateSchema.author_id payload with
    | Some author_id =>
        if truthy author_id then
          match authors s !! author_id with
          | Some _ => Continue (Book.set_author (Some author_id) book)
          | None => Return (400, not_found "Author" author_id)
          end
        else Continue book
    | None => Continue book
    end in
  match set_author with
  | Return r => (r, s)
  | Continue book =>
      let set_language : flow Book.t :=
        match BookCreateSchema.language_id payload with
        | Some language_id =>
            if truthy language_id then
              match languages s !! language_id with
              | Some _ => Continue (Book.set_language (Some language_id) book)
              | None => Return (400, not_found "Language" language_id)
              end
            else Continue book
        | None => Continue book
        end in
      match set_language with
      | Return r => (r, s)
      | Continue book =>
          let '(book_id, s) := Book_insert s book in
          match add_genres book_id (BookCreateSchema.genre_ids payload) s with
          | (Return r, s) => (r, s)
          | (Continue _, s) => ((201, BookOut book_id book), s)
          end
      end
  end.

(** [update_book] (lines 332-376). *)
Definition update_book (book_id : Z) (payload : BookUpdateSchema.t) (s : Store)
    : Response * Store :=
  match books s !! book_id with
  | None => ((404, ErrorSchema "Book not found"), s)
  | Some book =>
      let book := assign (BookUpdateSchema.title payload) Book.set_title book in
      let book := assign (BookUpdateSchema.summary payload) Book.set_summary book in
      let book := assign (BookUpdateSchema.isbn payload) Book.set_isbn book in
      let set_author : flow Book.t :=
        match BookUpdateSchema.author_id payload with
        | Some author_id =>
            match authors s !! author_id with
            | Some _ => Continue (Book.set_author (Some author_id) book)
            | None => Return (400, not_found "Author" author_id)
            end
        | None => Continue book
        end in
      match set_author with
      | Return r => (r, s)
      | Continue book =>
          let set_language : flow Book.t :=
            match BookUpdateSchema.language_id payload with
            | Some language_id =>
                match languages s !! language_id with
                | Some _ => Continue (Book.set_language (Some language_id) book)
                | None => Return (400, not_found "Language" language_id)
                end
            | None => Continue book
            end in
          match set_language with
          | Return r => (r, s)
          | Continue book =>
              let s := set_books (insert book_id book) s in
              match BookUpdateSchema.genre_ids payload with
              | Some genre_ids =>
                  match add_genres book_id genre_ids (genre_clear book_id s) with
                  | (Return r, s) => (r, s)
                  | (Continue _, s) => ((200, BookOut book_id book), s)
                  end
              | None => ((200, BookOut book_id book), s)
              end
          end
      end
  end.

(** ** Author, Genre and Language routes *)

(** [update_author] (lines 161-180). *)
Definition update_author (author_id : Z) (payload : AuthorUpdateSchema.t) (s : Store)
    : Response * Store :=
  match authors s !! author_id with
  | None => ((404, ErrorSchema "Author not found"), s)
  | Some author =>
      let author := assign (AuthorUpdateSchema.first_name payload) Author.set_first_name author in
      let author := assign (AuthorUpdateSchema.last_name payload) Author.set_last_name author in
      let author :=
        assign (AuthorUpdateSchema.date_of_birth payload)
               (λ d, Author.set_date_of_birth (Some d)) author in
      let author :=
        assign (AuthorUpdateSchema.date_of_death payload)
               (λ d, Author.set_date_of_death (Some d)) author in
      ((200, AuthorOut author_id author), set_authors (insert author_id author) s)
  end.

(** [update_genre] (lines 212-225). *)
Definition update_genre (genre_id : Z) (payload : GenreUpdateSchema.t) (s : Store)
    : Response * Store :=
  match genres s !! genre_id with
  | None => ((404, ErrorSchema "Genre not found"), s)
  | Some genre =>
      let genre := assign (GenreUpdateSchema.name payload) Genre.set_name genre in
      ((200, GenreOut genre_id genre), set_genres (insert genre_id genre) s)
  end.

(** [update_language] (lines 257-270). *)
Definition update_language (language_id : Z) (payload : LanguageUpdateSchema.t) (s : Store)
    : Response * Store :=
  match languages s !! language_id with
  | None => ((404, ErrorSchema "Language not found"), s)
  | Some language =>
      let language := assign (LanguageUpdateSchema.name payload) Language.set_name language in
      ((200, LanguageOut language_id language), set_languages (insert language_id language) s)
  end.

(** ** What the handlers take from Django, django-ninja and the standard library *)

Class Framework := {
  (** [uuid.UUID(text)]: [None] stands for the [ValueError] raised on text
      that is not a well-formed token. *)
  uuid_UUID : string → option UUID;
  (** [user.has_perm(perm)]. *)
  has_perm : Z → string → bool;
  (** [django.contrib.auth.authenticate(username=..., password=...)]: the
      user's identifier, or [None] when the credentials are not accepted. *)
  authenticate : string → string → option Z;
  (** What [from ninja.security import create_token] binds: the function,
      or [None] when [ninja.security] defines no such name and the import
      raises [ImportError]. *)
  create_token : option (Z → string);
}.

(** The part of the HTTP request the handlers look at: [request.user], with
    [None] for the anonymous user. *)
Record Request := MkRequest { user : option Z }.

(** [django_auth], the authentication callable of the API and of every
    mutating route: it yields [request.user] when that user is authenticated
    and nothing otherwise. *)
Definition django_auth (request : Request) : option Z := user request.

(** A route registered with [auth=django_auth]: the handler runs only when
    the callable yields a user; otherwise the framework answers 401 and the
    handler is not entered.  A request is taken to have a body that parsed
    into the payload schema and to pass whatever cross-site check the
    installed version of the callable adds; the framework turns away the
    others before this point (422, 403), with the store untouched. *)
Definition authenticated (request : Request) (handler : Store → Response * Store)
    (s : Store) : Response * Store :=
  match django_auth request with
  | Some _ => handler s
  | None => ((401, Detail "Unauthorized"), s)
  end.

Section BookInstanceRoutes.
Context {F : Framework}.

(** [get_bookinstance] (lines 393-401). *)
Definition get_bookinstance (instance_id : string) (s : Store) : Response :=
  match uuid_UUID instance_id with
  | None => (404, ErrorSchema "Invalid UUID format")
  | Some instance_uuid =>
      match bookinstances s !! instance_uuid with
      | Some bookinstance => (200, BookInstanceOut instance_uuid bookinstance)
      | None => (404, ErrorSchema "Book instance not found")
      end
  end.

(** [create_bookinstance] (lines 403-433).  [new_id] is the unique token
    (section 3 of the specification) the model gives the new object when
    [BookInstance(...)] builds it. *)
Definition create_bookinstance (new_id : UUID) (payload : BookInstanceCreateSchema.t)
    (s : Store) : Response * Store :=
  match books s !! BookInstanceCreateSchema.book_id payload with
  | None => ((400, not_found "Book" (BookInstanceCreateSchema.book_id payload)), s)
  | Some _ =>
      let bookinstance :=
        BookInstance.Build (BookInstanceCreateSchema.book_id payload)
                           (BookInstanceCreateSchema.imprint payload)
                           (BookInstanceCreateSchema.due_back payload)
                           None
                           (BookInstanceCreateSchema.status payload) in
      let set_borrower : flow BookInstance.t :=
        match BookInstanceCreateSchema.borrower_id payload with
        | Some borrower_id =>
            if truthy borrower_id then
              if bool_decide (borrower_id ∈ users s)
              then Continue (BookInstance.set_borrower (Some borrower_id) bookinstance)
              else Return (400, not_found "User" borrower_id)
            else Continue bookinstance
        | None => Continue bookinstance
        end in
      match set_borrower with
      | Return r => (r, s)
      | Continue bookinstance =>
          ((201, BookInstanceOut new_id bookinstance),
           set_bookinstances (insert new_id bookinstance) s)
      end
  end.

(** [update_bookinstance] (lines 435-482). *)
Definition update_bookinstance (instance_id : string) (payload : BookInstanceUpdateSchema.t)
    (s : Store) : Response * Store :=
  match uuid_UUID instance_id with
  | None => ((404, ErrorSchema "Invalid UUID format"), s)
  | Some instance_uuid =>
      match bookinstances s !! instance_uuid with
      | None => ((404, ErrorSchema "Book instance not found"), s)
      | Some bookinstance =>
          let set_book : flow BookInstance.t :=
            match BookInstanceUpdateSchema.book_id payload with
            | Some book_id =>
                match books s !! book_id with
                | Some _ => Continue (BookInstance.set_book book_id bookinstance)
                | None => Return (400, not_found "Book" book_id)
                end
            | None => Continue bookinstance
            end in
          match set_book with
          | Return r => (r, s)
          | Continue bookinstance =>
              let bookinstance :=
                assign (BookInstanceUpdateSchema.imprint payload)
                       BookInstance.set_imprint bookinstance in
              let bookinstance :=
                assign (BookInstanceUpdateSchema.due_back payload)
                       (λ d, BookInstance.set_due_back (Some d)) bookinstance in
              let bookinstance :=
                assign (BookInstanceUpdateSchema.status payload)
                       BookInstance.set_status bookinstance in
              let set_borrower : flow BookInstance.t :=
                match BookInstanceUpdateSchema.borrower_id payload with
                | Some borrower_id =>
                    if bool_decide (borrower_id = 0)
                    then Continue (BookInstance.set_borrower None bookinstance)
                    else if bool_decide (borrower_id ∈ users s)
                    then Continue (BookInstance.set_borrower (Some borrower_id) bookinstance)
                    else Return (400, not_found "User" borrower_id)
                | None => Continue bookinstance
                end in
              match set_borrower with
              | Return r => (r, s)
              | Continue bookinstance =>
                  ((200, BookInstanceOut instance_uuid bookinstance),
                   set_bookinstances (insert instance_uuid bookinstance) s)
              end
          end
      end
  end.

(** [mark_returned] (lines 504-531). *)
Definition mark_returned (request : Request) (instance_id : string) (s : Store)
    : Response * Store :=
  if negb (from_option (λ u, has_perm u "catalog.can_mark_returned") false (user request))
  then ((403, ErrorSchema "You don't have permission to mark books as returned"), s)
  else
    match uuid_UUID instance_id with
    | None => ((404, ErrorSchema "Invalid UUID format"), s)
    | Some instance_uuid =>
        match bookinstances s !! instance_uuid with
        | None => ((404, ErrorSchema "Book instance not found"), s)
        | Some bookinstance =>
            let bookinstance := BookInstance.set_status "a" bookinstance in
            let bookinstance := BookInstance.set_due_back None bookinstance in
            let bookinstance := BookInstance.set_borrower None bookinstance in
            ((200, BookInstanceOut instance_uuid bookinstance),
             set_bookinstances (insert instance_uuid bookinstance) s)
        end
    end.

(** [get_token] (lines 533-544).  The three imports of lines 535-537 run
    on every call, before [authenticate] (line 539): when
    [from ninja.security import create_token] finds no such name, the
    [ImportError] leaves the handler, which has no [try]. *)
Definition get_token (data : LoginInput.t) : Response :=
  match create_token with
  | None => (500, Unhandled "ImportError")
  | Some create_token =>
      match authenticate (LoginInput.username data) (LoginInput.password data) with
      | None => (401, ErrorSchema "Invalid username or password")
      | Some user => (200, TokenOutput (create_token user))
      end
  end.

(** What the framework does with the handler's [return status, body]: the
    body is validated against the schema the route's [response=] map gives
    for that status.  A BookInstance goes through [BookInstanceSchema] (lines
    101-107), whose [borrower] is [Optional[int]]; the [borrower] attribute
    of the returned object is a User and not an integer, so an instance that
    has a borrower fails the validation and the answer is a 500 in place of
    the handler's.  This happens after the handler has returned: what it
    wrote to the store stays.  Every other body a handler returns fits its
    schema. *)
Definition respond (result : Response * Store) : Response * Store :=
  match result with
  | ((_, BookInstanceOut _ bookinstance), s) =>
      match BookInstance.borrower bookinstance with
      | Some _ => ((500, Unhandled "ValidationError"), s)
      | None => result
      end
  | _ => result
  end.

(** The routes as registered: the authentication callable, the handler,
    the validation of what it returned. *)
Definition PUT_bookinstance (request : Request) (instance_id : string)
    (payload : BookInstanceUpdateSchema.t) : Store → Response * Store :=
  authenticated request (λ s, respond (update_bookinstance instance_id payload s)).

Definition POST_bookinstance_return (request : Request) (instance_id : string)
    : Store → Response * Store :=
  authenticated request (λ s, respond (mark_returned request instance_id s)).

End BookInstanceRoutes.

Definition POST_book (request : Request) (payload : BookCreateSchema.t)
    : Store → Response * Store :=
  authenticated request (λ s, respond (create_book payload s)).

(** ** An instance for the examples *)

(** [text.replace(pattern, '')] for a non-empty [pattern]: occurrences are
    removed from left to right, without overlap. *)
Fixpoint str_remove_go (pattern : string) (skip : nat) (text : string) : string :=
  match text with
  | EmptyString => EmptyString
  | String c rest =>
      match skip with
      | S k => str_remove_go pattern k rest
      | O =>
          if String.prefix pattern text
          then str_remove_go pattern (String.length pattern - 1) rest
          else String c (str_remove_go pattern 0 rest)
      end
  end.

Definition str_remove (pattern text : string) : string := str_remove_go pattern 0 text.

Fixpoint lstrip (chars : list Ascii.ascii) (text : string) : string :=
  match text with
  | EmptyString => EmptyString
  | String c rest => if bool_decide (c ∈ chars) then lstrip chars rest else text
  end.

(** [text.strip(chars)]. *)
Definition strip (chars : list Ascii.ascii) (text : string) : string :=
  String.rev (lstrip chars (String.rev (lstrip chars text))).

Definition hex_digit (c : Ascii.ascii) : option N :=
  let n := Ascii.N_of_ascii c in
  if bool_decide (48 ≤ n ≤ 57)%N then Some (n - 48)%N
  else if bool_decide (97 ≤ n ≤ 102)%N then Some (n - 87)%N
  else if bool_decide (65 ≤ n ≤ 70)%N then Some (n - 55)%N
  else None.

Fixpoint int16 (acc : N) (digits : string) : option N :=
  match digits with
  | EmptyString => Some acc
  | String c rest =>
      match hex_digit c with
      | Some d => int16 (16 * acc + d)%N rest
      | None => None
      end
  end.

(** The constructor [uuid.UUID(hex)] of the standard library on text made of
    hexadecimal digits, hyphens, braces and the [urn:] / [uuid:] prefixes:
    prefixes and hyphens are removed, braces stripped, and exactly 32
    hexadecimal digits must remain.  Python's [int(hex, 16)] also reads a
    sign, a [0x] prefix, underscores and blanks; such text is refused here,
    and no example uses it. *)
Definition uuid_of_hex (text : string) : option UUID :=
  let hex := str_remove "uuid:" (str_remove "urn:" text) in
  let hex := str_remove "-" (strip ["{"; "}"]%char hex) in
  if bool_decide (String.length hex = 32%nat) then int16 0%N hex else None.

(** A deployment with two accounts: user 1 (alice) holds
    [catalog.can_mark_returned], user 2 (bob) holds no permission.  As in
    django-ninja, [ninja.security] has no [create_token]. *)
Definition example_framework : Framework := {|
  uuid_UUID := uuid_of_hex;
  has_perm := λ u perm,
    bool_decide (u = 1 ∧ perm = "catalog.can_mark_returned");
  authenticate := λ username password,
    if bool_decide (username = "alice" ∧ password = "open sesame") then Some 1
    else if bool_decide (username = "bob" ∧ password = "hunter2") then Some 2
    else None;
  create_token := None;
|}.

(** The same deployment over a [ninja.security] that did define
    [create_token]. *)
Definition minting_framework : Framework := {|
  uuid_UUID := uuid_of_hex;
  has_perm := has_perm (Framework := example_framework);
  authenticate := authenticate (Framework := example_framework);
  create_token := Some (λ u, "token-" +:+ pretty u);
|}.

Definition alice : Request := MkRequest (Some 1).
Definition bob : Request := MkRequest (Some 2).
Definition anonymous : Request := MkRequest None.

Definition example_token : string := "12345678-1234-5678-1234-567812345678".

(** A store with one Genre row, "Fantasy", under key 1. *)
Definition one_genre_store : Store :=
  set_genres (insert 1 (Genre.Build "Fantasy")) empty_store.

Definition dune : BookCreateSchema.t :=
  BookCreateSchema.Build "Dune" "Desert planet" "9780441013593" None None [1; 7].

(** Author 0 exists and user 0 exists, and still the created rows carry no
    author and no borrower. *)
Definition zero_rows_store : Store :=
  MkStore {[ 0 := Author.Build "Frank" "Herbert" None None ]} ∅ ∅
          {[ 5 := Book.Build "Dune" "Desert planet" "9780441013593" None None ]}
          ∅ ∅ {[ 0 ]}.

Definition empty_update : BookInstanceUpdateSchema.t :=
  BookInstanceUpdateSchema.Build None None None None None.

Definition example_uuid : UUID := 0x12345678123456781234567812345678%N.

(** One author, two genres, one language, one book ("Dune", linked to genre
    1) and one copy of it, on loan to user 2. *)
Definition library_store : Store :=
  MkStore
    {[ 1 := Author.Build "Frank" "Herbert" (Some (Date 1920 10 8)) (Some (Date 1986 2 11)) ]}
    {[ 1 := Genre.Build "Fantasy"; 2 := Genre.Build "Science Fiction" ]}
    {[ 1 := Language.Build "English" ]}
    {[ 1 := Book.Build "Dune" "Desert planet" "9780441013593" (Some 1) (Some 1) ]}
    {[ (1, 1) ]}
    {[ example_uuid := BookInstance.Build 1 "Ace, 1965" (Some (Date 2024 5 1)) (Some 2) "o" ]}
    {[ 1; 2 ]}.

Definition on_loan : BookInstance.t :=
  BookInstance.Build 1 "Ace, 1965" (Some (Date 2024 5 1)) (Some 2) "o".

Definition returned_copy : BookInstance.t :=
  BookInstance.Build 1 "Ace, 1965" None None "a".

Definition dune_row : Book.t :=
  Book.Build "Dune" "Desert planet" "9780441013593" (Some 1) (Some 1).

Definition rename_author : AuthorUpdateSchema.t :=
  AuthorUpdateSchema.Build (Some "Franklin") None None None.

Definition retitle_book : BookUpdateSchema.t :=
  BookUpdateSchema.Build (Some "Dune Messiah") None None None None None.

Definition new_imprint : BookInstanceUpdateSchema.t :=
  BookInstanceUpdateSchema.Build None (Some "Chilton, 1965") None None None.

Definition regenre_book : BookUpdateSchema.t :=
  BookUpdateSchema.Build None None None None None (Some [2]).

Definition ungenre_book : BookUpdateSchema.t :=
  BookUpdateSchema.Build None None None None None (Some []).

Definition with_borrower (borrower_id : option Z) : BookInstanceUpdateSchema.t :=
  BookInstanceUpdateSchema.Build None None None borrower_id None.

(** ** The read, create and delete routes *)

Module AuthorCreateSchema.
Record t := Build {
  first_name : string;
  last_name : string;
  date_of_birth : option date;
  date_of_death : option date;
}.
End AuthorCreateSchema.

Module GenreCreateSchema.
Record t := Build { name : string }.
End GenreCreateSchema.

Module LanguageCreateSchema.
Record t := Build { name : string }.
End LanguageCreateSchema.

(** [get_author] (lines 141-146). *)
Definition get_author (author_id : Z) (s : Store) : Response :=
  match authors s !! author_id with
  | Some author => (200, AuthorOut author_id author)
  | None => (404, ErrorSchema "Author not found")
  end.

(** [create_author] (lines 148-159): [Author.objects.create(...)] builds
    the row and inserts it. *)
Definition create_author (payload : AuthorCreateSchema.t) (s : Store) : Response * Store :=
  let author :=
    Author.Build (AuthorCreateSchema.first_name payload)
                 (AuthorCreateSchema.last_name payload)
                 (AuthorCreateSchema.date_of_birth payload)
                 (AuthorCreateSchema.date_of_death payload) in
  let author_id := next_id (authors s) in
  ((201, AuthorOut author_id author), set_authors (insert author_id author) s).

(** [get_genre] (lines 197-202). *)
Definition get_genre (genre_id : Z) (s : Store) : Response :=
  match genres s !! genre_id with
  | Some genre => (200, GenreOut genre_id genre)
  | None => (404, ErrorSchema "Genre not found")
  end.

(** [create_genre] (lines 204-210). *)
Definition create_genre (payload : GenreCreateSchema.t) (s : Store) : Response * Store :=
  let genre := Genre.Build (GenreCreateSchema.name payload) in
  let genre_id := next_id (genres s) in
  ((201, GenreOut genre_id genre), set_genres (insert genre_id genre) s).

(** [genre.delete()]: the Genre row goes, and with it the rows of the
    many-to-many link table that point to it. *)
Definition Genre_delete (genre_id : Z) (s : Store) : Store :=
  set_book_genre (filter (λ link, link.2 ≠ genre_id)) (set_genres (delete genre_id) s).

(** [delete_genre] (lines 227-234). *)
Definition delete_genre (genre_id : Z) (s : Store) : Response * Store :=
  match genres s !! genre_id with
  | Some _ => ((204, NoContent), Genre_delete genre_id s)
  | None => ((404, ErrorSchema "Genre not found"), s)
  end.

(** [get_language] (lines 242-247). *)
Definition get_language (language_id : Z) (s : Store) : Response :=
  match languages s !! language_id with
  | Some language => (200, LanguageOut language_id language)
  | None => (404, ErrorSchema "Language not found")
  end.

(** [create_language] (lines 249-255). *)
Definition create_language (payload : LanguageCreateSchema.t) (s : Store)
    : Response * Store :=
  let language := Language.Build (LanguageCreateSchema.name payload) in
  let language_id := next_id (languages s) in
  ((201, LanguageOut language_id language), set_languages (insert language_id language) s).

(** [get_book] (lines 287-292). *)
Definition get_book (book_id : Z) (s : Store) : Response :=
  match books s !! book_id with
  | Some book => (200, BookOut book_id book)
  | None => (404, ErrorSchema "Book not found")
  end.

Section DeleteBookInstance.
Context {F : Framework}.

(** [delete_bookinstance] (lines 484-501).  No row of another table points
    to a BookInstance, so [bookinstance.delete()] removes that row alone. *)
Definition delete_bookinstance (instance_id : string) (s : Store) : Response * Store :=
  match uuid_UUID instance_id with
  | None => ((404, ErrorSchema "Invalid UUID format"), s)
  | Some instance_uuid =>
      match bookinstances s !! instance_uuid with
      | Some _ => ((204, NoContent), set_bookinstances (delete instance_uuid) s)
      | None => ((404, ErrorSchema "Book instance not found"), s)
      end
  end.

End DeleteBookInstance.

(** ** Referential integrity of a store *)

(** Every reference kept in a row points to an existing row: a Book's author
    and language, both ends of a genre link, a BookInstance's book and its
    borrower. *)
Definition consistent (s : Store) : Prop :=
  (∀ book_id book, books s !! book_id = Some book →
     (∀ a, Book.author book = Some a → is_Some (authors s !! a))
     ∧ (∀ l, Book.language book = Some l → is_Some (languages s !! l)))
  ∧ (∀ book_id genre_id, (book_id, genre_id) ∈ book_genre s →
       is_Some (books s !! book_id) ∧ is_Some (genres s !! genre_id))
  ∧ (∀ instance_uuid bookinstance,
       bookinstances s !! instance_uuid = Some bookinstance →
       is_Some (books s !! BookInstance.book bookinstance)
       ∧ (∀ u, BookInstance.borrower bookinstance = Some u → u ∈ users s)).

(** ** Vocabulary of the statements *)

(** The reference a create handler keeps for a payload identifier that
    resolves: none for [None] and for 0, the identifier otherwise. *)
Definition kept_reference (x : option Z) : option Z :=
  x ≫= λ n, if bool_decide (n = 0) then None else Some n.

(** The two stores differ at most in the Book table and the link table. *)
Definition same_outside_books (s s' : Store) : Prop :=
  authors s' = authors s ∧ genres s' = genres s ∧ languages s' = languages s
  ∧ bookinstances s' = bookinstances s ∧ users s' = users s.

(** The two stores differ at most in the BookInstance table. *)
Definition same_outside_bookinstances (s s' : Store) : Prop :=
  authors s' = authors s ∧ genres s' = genres s ∧ languages s' = languages s
  ∧ books s' = books s ∧ book_genre s' = book_genre s ∧ users s' = users s.

(** ** More example requests *)

Definition children_of_dune : BookCreateSchema.t :=
  BookCreateSchema.Build "Children of Dune" "Arrakis, nine years on" "9780441104024"
                         (Some 1) (Some 0) [2; 1].

Definition children_of_dune_row : Book.t :=
  Book.Build "Children of Dune" "Arrakis, nine years on" "9780441104024" (Some 1) None.

Definition solaris (author_id language_id : option Z) : BookCreateSchema.t :=
  BookCreateSchema.Build "Solaris" "An ocean that thinks" "9780156027601"
                         author_id language_id [].

Definition illustrated_dune : BookUpdateSchema.t :=
  BookUpdateSchema.Build (Some "Dune (illustrated)") None None None None (Some [2; 7; 1]).

Definition illustrated_dune_row : Book.t :=
  Book.Build "Dune (illustrated)" "Desert planet" "9780441013593" (Some 1) (Some 1).

Definition reassign_book (author_id language_id : option Z) : BookUpdateSchema.t :=
  BookUpdateSchema.Build (Some "Dune (illustrated)") None None author_id language_id None.

Definition second_token : string := "00000000-0000-0000-0000-00000000002a".

Definition second_copy (book_id : Z) (borrower_id : option Z) : BookInstanceCreateSchema.t :=
  BookInstanceCreateSchema.Build book_id "Chilton, 1965" None borrower_id "a".

Definition second_copy_row : BookInstance.t :=
  BookInstance.Build 1 "Chilton, 1965" None None "a".

Definition herbert : AuthorCreateSchema.t :=
  AuthorCreateSchema.Build "Brian" "Herbert" (Some (Date 1947 6 29)) None.

(** * Properties *)

(** ** The reference token parser *)

Example uuid_of_hex_canonical :
  uuid_of_hex example_token = Some 0x12345678123456781234567812345678%N.
Proof. vm_compute. reflexivity. Qed.

Example uuid_of_hex_urn :
  uuid_of_hex "urn:uuid:{12345678-1234-5678-1234-567812345678}"
  = uuid_of_hex example_token.
Proof. vm_compute. reflexivity. Qed.

Example uuid_of_hex_malformed : uuid_of_hex "not-a-uuid" = None.
Proof. vm_compute. reflexivity. Qed.

(** ** Keys of inserted rows *)

Lemma next_id_above {A} (m : gmap Z A) (k : Z) :
  is_Some (m !! k) → k < next_id m.
Proof.
  unfold next_id.
  cut (∀ k, is_Some (m !! k) → k ≤ map_fold (λ k _ acc, Z.max k acc) 0 m).
  { intros Hle Hk. specialize (Hle k Hk). lia. }
  clear k.
  apply (map_fold_weak_ind (λ r m, ∀ k, is_Some (m !! k) → k ≤ r)).
  - intros k [x Hx]. by rewrite lookup_empty in Hx.
  - intros i x m' r Hi IH k Hk.
    destruct (decide (i = k)) as [->|Hne]; [lia|].
    rewrite lookup_insert_ne in Hk by done.
    specialize (IH k Hk). lia.
Qed.

(** A row inserted without a key never replaces an existing row. *)
Lemma next_id_fresh {A} (m : gmap Z A) : m !! next_id m = None.
Proof.
  destruct (m !! next_id m) eqn:E; [|done].
  assert (next_id m < next_id m) by (apply next_id_above; eauto). lia.
Qed.

(** ** The genre loop *)

Lemma add_genres_tables book_id genre_ids s :
  let s' := (add_genres book_id genre_ids s).2 in
  authors s' = authors s ∧ genres s' = genres s ∧ languages s' = languages s
  ∧ books s' = books s ∧ bookinstances s' = bookinstances s ∧ users s' = users s.
Proof.
  revert s. induction genre_ids as [|g rest IH]; intros s; simpl; [done|].
  destruct (genres s !! g); simpl; [|done].
  specialize (IH (genre_add book_id g s)). simpl in IH. apply IH.
Qed.

(** When every identifier resolves, the loop falls through and has added
    exactly the listed links. *)
Lemma add_genres_all_resolve book_id genre_ids s :
  (∀ g, g ∈ genre_ids → is_Some (genres s !! g)) →
  ∃ s', add_genres book_id genre_ids s = (Continue (), s')
        ∧ ∀ link, link ∈ book_genre s' ↔
                  link ∈ book_genre s ∨ (link.1 = book_id ∧ link.2 ∈ genre_ids).
Proof.
  revert s. induction genre_ids as [|g rest IH]; intros s Hall; simpl.
  - exists s. split; [done|]. intros link. set_solver.
  - destruct (Hall g) as [x Hx]; [set_solver|]. rewrite Hx.
    destruct (IH (genre_add book_id g s)) as (s' & Hrun & Hlinks).
    { intros g' Hg'. simpl. apply Hall. set_solver. }
    exists s'. split; [done|]. intros [b g']. rewrite Hlinks. simpl.
    rewrite elem_of_union, elem_of_singleton, elem_of_cons.
    split; [intros [[Heq|?]|[? ?]]|intros [?|[? [?|?]]]];
      simplify_eq/=; eauto.
Qed.

(** The first identifier without a Genre row stops the loop with a 400
    naming it; the store keeps whatever the loop was given. *)
Lemma add_genres_unresolved book_id genre_ids s :
  (∃ g, g ∈ genre_ids ∧ genres s !! g = None) →
  ∃ g s', g ∈ genre_ids ∧ genres s !! g = None
          ∧ add_genres book_id genre_ids s = (Return (400, not_found "Genre" g), s')
          ∧ books s' = books s.
Proof.
  revert s. induction genre_ids as [|g rest IH]; intros s (g0 & Hin & Hnone).
  { by apply elem_of_nil in Hin. }
  simpl. destruct (genres s !! g) as [x|] eqn:Hg.
  - destruct (IH (genre_add book_id g s)) as (g1 & s' & ? & ? & Hrun & ?).
    { exists g0. split; [|done]. apply elem_of_cons in Hin as [->|?]; [congruence|done]. }
    exists g1, s'. split_and!; [set_solver|done..].
  - exists g, s. split_and!; [set_solver|done..].
Qed.

(** ** create_book *)

(** What [create_book] does when the genre loop meets an identifier without
    a Genre row: the answer is the 400 naming that identifier, and the Book
    row inserted before the loop stays in the store under a key that was free
    before the request. *)
Lemma create_book_unresolved_genre payload s :
  (∀ a, BookCreateSchema.author_id payload = Some a → a = 0 ∨ is_Some (authors s !! a)) →
  (∀ l, BookCreateSchema.language_id payload = Some l → l = 0 ∨ is_Some (languages s !! l)) →
  (∃ g, g ∈ BookCreateSchema.genre_ids payload ∧ genres s !! g = None) →
  ∃ g book,
    g ∈ BookCreateSchema.genre_ids payload ∧ genres s !! g = None
    ∧ (create_book payload s).1 = (400, not_found "Genre" g)
    ∧ books s !! next_id (books s) = None
    ∧ books (create_book payload s).2 !! next_id (books s) = Some book
    ∧ Book.title book = BookCreateSchema.title payload.
Proof.
  intros Hauthor Hlanguage Hgenre.
  unfold create_book, truthy.
  destruct (BookCreateSchema.author_id payload) as [a|] eqn:Ha;
    [destruct (Hauthor a eq_refl) as [->|[? Hx]]; [|case_bool_decide; [rewrite Hx|]]|];
  simpl;
  (destruct (BookCreateSchema.language_id payload) as [l|] eqn:Hl;
    [destruct (Hlanguage l eq_refl) as [->|[? Hy]]; [|case_bool_decide; [rewrite Hy|]]|]);
  simpl.
  all: match goal with
       | |- context [add_genres ?b ?ids ?s0] =>
           destruct (add_genres_unresolved b ids s0)
             as (g & s' & Hin & Hnone & Hrun & Hbooks); [exact Hgenre|];
           rewrite Hrun; simpl
       end.
  all: exists g; eexists; split_and!;
    [done|done|done|apply next_id_fresh|rewrite Hbooks; simpl; apply lookup_insert_eq|done].
Qed.

(** C1, at a failing input.  In a store whose only Genre row has key 1, an
    authenticated POST /books with [genre_ids = [1, 7]] is answered 400
    "Genre with ID 7 not found", and yet the store it leaves holds the new
    Book row under key 1 and the link of that book to genre 1: the creation
    is rejected and the store is not left unchanged. *)
Theorem create_book_unknown_genre_leaves_book :
  POST_book alice dune one_genre_store
  = ((400, ErrorSchema "Genre with ID 7 not found"),
     set_book_genre (λ _, {[ (1, 1) ]})
       (set_books (insert 1 (Book.Build "Dune" "Desert planet" "9780441013593" None None))
          one_genre_store))
  ∧ books one_genre_store !! 1 = None
  ∧ books (POST_book alice dune one_genre_store).2 !! 1
    = Some (Book.Build "Dune" "Desert planet" "9780441013593" None None)
  ∧ (POST_book alice dune one_genre_store).2 ≠ one_genre_store.
Proof.
  split_and!; try (vm_compute; reflexivity).
  intros Heq. apply (f_equal (λ s, books s !! 1)) in Heq.
  vm_compute in Heq. discriminate.
Qed.

(** ** A zero identifier on create *)

(** C9.  On create a related identifier equal to 0 is handled exactly like a
    missing one: [create_book] with [author_id = 0] or [language_id = 0] and
    [create_bookinstance] with [borrower_id = 0] do what they do for [None],
    in every store (also one that holds a row with key 0), so no lookup of
    that identifier decides anything; the record is created with a null
    reference and the answer is 201.  [update_book], by contrast, looks the
    identifier 0 up and answers 400 naming it when there is no such row. *)
Theorem create_zero_identifier_is_absent :
  (∀ title summary isbn language_id genre_ids s,
     create_book (BookCreateSchema.Build title summary isbn (Some 0) language_id genre_ids) s
     = create_book (BookCreateSchema.Build title summary isbn None language_id genre_ids) s)
  ∧ (∀ title summary isbn author_id genre_ids s,
       create_book (BookCreateSchema.Build title summary isbn author_id (Some 0) genre_ids) s
       = create_book (BookCreateSchema.Build title summary isbn author_id None genre_ids) s)
  ∧ (∀ new_id book_id imprint due_back status s,
       create_bookinstance new_id
         (BookInstanceCreateSchema.Build book_id imprint due_back (Some 0) status) s
       = create_bookinstance new_id
           (BookInstanceCreateSchema.Build book_id imprint due_back None status) s)
  ∧ (∀ title summary isbn s,
       let book := Book.Build title summary isbn None None in
       create_book (BookCreateSchema.Build title summary isbn (Some 0) (Some 0) []) s
       = ((201, BookOut (next_id (books s)) book),
          set_books (insert (next_id (books s)) book) s))
  ∧ (∀ new_id book_id imprint due_back status s,
       is_Some (books s !! book_id) →
       let bookinstance := BookInstance.Build book_id imprint due_back None status in
       create_bookinstance new_id
         (BookInstanceCreateSchema.Build book_id imprint due_back (Some 0) status) s
       = ((201, BookInstanceOut new_id bookinstance),
          set_bookinstances (insert new_id bookinstance) s))
  ∧ (∀ book_id title summary isbn language_id genre_ids s,
       is_Some (books s !! book_id) →
       authors s !! 0 = None →
       update_book book_id
         (BookUpdateSchema.Build title summary isbn (Some 0) language_id genre_ids) s
       = ((400, ErrorSchema "Author with ID 0 not found"), s)).
Proof.
  split_and!.
  - done.
  - intros. unfold create_book; simpl.
    by destruct author_id as [a|]; [unfold truthy; case_bool_decide; [destruct (authors s !! a)|]|].
  - done.
  - done.
  - intros new_id book_id imprint due_back status s [book Hbook].
    unfold create_bookinstance; simpl. by rewrite Hbook.
  - intros book_id title summary isbn language_id genre_ids s [book Hbook] Hnone.
    unfold update_book; simpl. by rewrite Hbook, Hnone.
Qed.

Lemma create_zero_identifier_is_absent_witness :
  is_Some (books zero_rows_store !! 5)
  ∧ create_bookinstance 77%N
      (BookInstanceCreateSchema.Build 5 "Ace, 1965" None (Some 0) "a") zero_rows_store
    = ((201, BookInstanceOut 77%N (BookInstance.Build 5 "Ace, 1965" None None "a")),
       set_bookinstances (insert 77%N (BookInstance.Build 5 "Ace, 1965" None None "a"))
         zero_rows_store)
  ∧ authors one_genre_store !! 0 = None
  ∧ update_book 5 (BookUpdateSchema.Build None None None (Some 0) None None)
      (set_books (λ _, books zero_rows_store) one_genre_store)
    = ((400, ErrorSchema "Author with ID 0 not found"),
       set_books (λ _, books zero_rows_store) one_genre_store).
Proof.
  assert (Hbook : is_Some (books zero_rows_store !! 5)) by (vm_compute; eauto).
  destruct create_zero_identifier_is_absent
    as (_ & _ & _ & _ & Hinstance & Hupdate).
  split_and!.
  - exact Hbook.
  - exact (Hinstance 77%N 5 "Ace, 1965" None "a" zero_rows_store Hbook).
  - reflexivity.
  - exact (Hupdate 5 None None None None None
             (set_books (λ _, books zero_rows_store) one_genre_store) Hbook eq_refl).
Defined.

(** ** BookInstance routes *)

Lemma set_bookinstances_insert_twice instance_uuid (row : BookInstance.t) s :
  set_bookinstances (insert instance_uuid row)
    (set_bookinstances (insert instance_uuid row) s)
  = set_bookinstances (insert instance_uuid row) s.
Proof. unfold set_bookinstances; simpl. by rewrite insert_insert_eq. Qed.

Section BookInstanceProperties.
Context {F : Framework}.

(** C7.  [get_bookinstance] answers 404 to every text that is not a
    well-formed token, as it does to a well-formed token of no instance;
    the status is never anything else for such input. *)
Theorem get_bookinstance_malformed_is_not_found instance_id s :
  (uuid_UUID instance_id = None →
     get_bookinstance instance_id s = (404, ErrorSchema "Invalid UUID format"))
  ∧ (∀ instance_uuid,
       uuid_UUID instance_id = Some instance_uuid →
       bookinstances s !! instance_uuid = None →
       get_bookinstance instance_id s = (404, ErrorSchema "Book instance not found"))
  ∧ ((uuid_UUID instance_id = None
      ∨ ∃ instance_uuid, uuid_UUID instance_id = Some instance_uuid
                         ∧ bookinstances s !! instance_uuid = None) →
     status_code (get_bookinstance instance_id s) = 404).
Proof.
  unfold get_bookinstance. split_and!.
  - by intros ->.
  - by intros u -> ->.
  - by intros [->|(u & -> & ->)].
Qed.

(** C3.  For an existing instance and a caller holding
    [catalog.can_mark_returned], [mark_returned] answers 200 and stores the
    instance with status "a", no due date and no borrower, whatever these
    were; book and imprint are kept.  Run again on the resulting store it
    gives the same answer and leaves that store as it is. *)
Theorem mark_returned_resets_and_is_idempotent
    request caller instance_id instance_uuid bookinstance s :
  user request = Some caller →
  has_perm caller "catalog.can_mark_returned" = true →
  uuid_UUID instance_id = Some instance_uuid →
  bookinstances s !! instance_uuid = Some bookinstance →
  let returned :=
    BookInstance.Build (BookInstance.book bookinstance)
                       (BookInstance.imprint bookinstance) None None "a" in
  let s' := set_bookinstances (insert instance_uuid returned) s in
  POST_bookinstance_return request instance_id s
  = ((200, BookInstanceOut instance_uuid returned), s')
  ∧ bookinstances s' !! instance_uuid = Some returned
  ∧ POST_bookinstance_return request instance_id s'
    = ((200, BookInstanceOut instance_uuid returned), s').
Proof.
  intros Huser Hperm Huuid Hrow returned s'.
  assert (Hstored : bookinstances s' !! instance_uuid = Some returned)
    by apply lookup_insert_eq.
  unfold POST_bookinstance_return, authenticated, django_auth, mark_returned.
  rewrite Huser; simpl. rewrite Hperm, Huuid; simpl.
  rewrite Hrow.
  split_and!; [done|done|].
  unfold s' at 1. simpl. rewrite lookup_insert_eq.
  unfold BookInstance.set_borrower, BookInstance.set_due_back, BookInstance.set_status;
    simpl.
  fold returned. f_equal. apply set_bookinstances_insert_twice.
Qed.

(** C10.  The permission test comes first in [mark_returned]: a caller
    without [catalog.can_mark_returned] is answered 403 for every instance
    identifier, well-formed or not, of an existing instance or not, and the
    store is returned as it was. *)
Theorem mark_returned_forbidden_first request caller instance_id s :
  user request = Some caller →
  has_perm caller "catalog.can_mark_returned" = false →
  POST_bookinstance_return request instance_id s
  = ((403, ErrorSchema "You don't have permission to mark books as returned"), s).
Proof.
  intros Huser Hperm.
  unfold POST_bookinstance_return, authenticated, django_auth, mark_returned.
  rewrite Huser; simpl. by rewrite Hperm.
Qed.

(** What [get_token] does once its imports have succeeded: 200 with the
    token minted for the user when the credentials are accepted, and the
    fixed pair 401 "Invalid username or password" when they are not, so that
    any two rejected logins receive the same response. *)
Lemma get_token_when_import_succeeds mint :
  create_token = Some mint →
  (∀ data account,
     authenticate (LoginInput.username data) (LoginInput.password data) = Some account →
     get_token data = (200, TokenOutput (mint account)))
  ∧ (∀ data,
       authenticate (LoginInput.username data) (LoginInput.password data) = None →
       get_token data = (401, ErrorSchema "Invalid username or password"))
  ∧ (∀ data1 data2,
       authenticate (LoginInput.username data1) (LoginInput.password data1) = None →
       authenticate (LoginInput.username data2) (LoginInput.password data2) = None →
       get_token data1 = get_token data2).
Proof.
  intros Himport. unfold get_token. rewrite Himport. split_and!.
  - by intros data account ->.
  - by intros data ->.
  - by intros data1 data2 -> ->.
Qed.

(** C8, where the code fails it.  [ninja.security] defines no
    [create_token], so the import of line 537 raises before [authenticate]
    is called: every login, with accepted credentials or not, is answered
    500; no token is returned and no 401. *)
Theorem get_token_import_error data :
  create_token = None →
  get_token data = (500, Unhandled "ImportError")
  ∧ status_code (get_token data) ≠ 200
  ∧ status_code (get_token data) ≠ 401.
Proof. intros Himport. unfold get_token. by rewrite Himport. Qed.

End BookInstanceProperties.

(** ** update_bookinstance: the instance token *)

(** C2, as stated, fails: an authenticated PUT with the malformed token
    "not-a-uuid", and one with a well-formed token of no instance, are both
    answered 404, not 400. *)
Lemma update_bookinstance_bad_token_is_404_not_400 :
  PUT_bookinstance (F := example_framework) alice "not-a-uuid" empty_update empty_store
  = ((404, ErrorSchema "Invalid UUID format"), empty_store)
  ∧ PUT_bookinstance (F := example_framework) alice example_token empty_update empty_store
    = ((404, ErrorSchema "Book instance not found"), empty_store)
  ∧ status_code
      (PUT_bookinstance (F := example_framework) alice "not-a-uuid" empty_update
         empty_store).1 ≠ 400
  ∧ status_code
      (PUT_bookinstance (F := example_framework) alice example_token empty_update
         empty_store).1 ≠ 400.
Proof. split_and!; vm_compute; (reflexivity || discriminate). Qed.

Section UpdateBookInstanceToken.
Context {F : Framework}.

(** C2, amended.  For an authenticated PUT /bookinstances/{uuid}, a
    malformed token and a token of no existing instance are both answered
    404 (not 400), with the store untouched; the request without an
    authenticated user is answered 401 and the handler is not entered. *)
Theorem update_bookinstance_bad_token_is_not_found request instance_id payload s :
  (is_Some (user request) → uuid_UUID instance_id = None →
     PUT_bookinstance request instance_id payload s
     = ((404, ErrorSchema "Invalid UUID format"), s))
  ∧ (is_Some (user request) →
     ∀ instance_uuid,
       uuid_UUID instance_id = Some instance_uuid →
       bookinstances s !! instance_uuid = None →
       PUT_bookinstance request instance_id payload s
       = ((404, ErrorSchema "Book instance not found"), s))
  ∧ (user request = None →
     PUT_bookinstance request instance_id payload s = ((401, Detail "Unauthorized"), s)).
Proof.
  unfold PUT_bookinstance, authenticated, django_auth, update_bookinstance.
  split_and!.
  - by intros [caller ->] ->.
  - by intros [caller ->] u -> ->.
  - by intros ->.
Qed.

End UpdateBookInstanceToken.

Lemma update_bookinstance_bad_token_is_not_found_witness :
  is_Some (user alice)
  ∧ uuid_UUID (Framework := example_framework) "not-a-uuid" = None
  ∧ PUT_bookinstance (F := example_framework) alice "not-a-uuid" empty_update one_genre_store
    = ((404, ErrorSchema "Invalid UUID format"), one_genre_store)
  ∧ uuid_UUID (Framework := example_framework) example_token
    = Some 0x12345678123456781234567812345678%N
  ∧ bookinstances one_genre_store !! 0x12345678123456781234567812345678%N = None
  ∧ PUT_bookinstance (F := example_framework) alice example_token empty_update one_genre_store
    = ((404, ErrorSchema "Book instance not found"), one_genre_store)
  ∧ user anonymous = None
  ∧ PUT_bookinstance (F := example_framework) anonymous example_token empty_update
      one_genre_store
    = ((401, Detail "Unauthorized"), one_genre_store).
Proof.
  assert (Halice : is_Some (user alice)) by (simpl; eauto).
  assert (Hbad : uuid_UUID (Framework := example_framework) "not-a-uuid" = None)
    by (vm_compute; reflexivity).
  assert (Hgood : uuid_UUID (Framework := example_framework) example_token
                  = Some 0x12345678123456781234567812345678%N)
    by (vm_compute; reflexivity).
  assert (Hmissing :
            bookinstances one_genre_store !! 0x12345678123456781234567812345678%N = None)
    by (vm_compute; reflexivity).
  split_and!.
  - exact Halice.
  - exact Hbad.
  - exact (proj1 (update_bookinstance_bad_token_is_not_found (F := example_framework)
                    alice "not-a-uuid" empty_update one_genre_store) Halice Hbad).
  - exact Hgood.
  - exact Hmissing.
  - exact (proj1 (proj2 (update_bookinstance_bad_token_is_not_found (F := example_framework)
                           alice example_token empty_update one_genre_store))
             Halice _ Hgood Hmissing).
  - reflexivity.
  - exact (proj2 (proj2 (update_bookinstance_bad_token_is_not_found
                           (F := example_framework)
                           anonymous example_token empty_update one_genre_store))
             eq_refl).
Defined.

(** ** Updates keep what the payload leaves out *)

Lemma update_author_frame author_id payload s author :
  authors s !! author_id = Some author →
  ∃ author',
    authors (update_author author_id payload s).2 !! author_id = Some author'
    ∧ (AuthorUpdateSchema.first_name payload = None →
       Author.first_name author' = Author.first_name author)
    ∧ (AuthorUpdateSchema.last_name payload = None →
       Author.last_name author' = Author.last_name author)
    ∧ (AuthorUpdateSchema.date_of_birth payload = None →
       Author.date_of_birth author' = Author.date_of_birth author)
    ∧ (AuthorUpdateSchema.date_of_death payload = None →
       Author.date_of_death author' = Author.date_of_death author).
Proof.
  intros Hrow. unfold update_author. rewrite Hrow; simpl.
  rewrite lookup_insert_eq. eexists; split; [done|].
  destruct payload as [[?|] [?|] [?|] [?|]]; simpl; split_and!; done.
Qed.

Lemma update_genre_frame genre_id payload s genre :
  genres s !! genre_id = Some genre →
  ∃ genre',
    genres (update_genre genre_id payload s).2 !! genre_id = Some genre'
    ∧ (GenreUpdateSchema.name payload = None → Genre.name genre' = Genre.name genre).
Proof.
  intros Hrow. unfold update_genre. rewrite Hrow; simpl.
  rewrite lookup_insert_eq. eexists; split; [done|].
  by destruct payload as [[?|]].
Qed.

Lemma update_language_frame language_id payload s language :
  languages s !! language_id = Some language →
  ∃ language',
    languages (update_language language_id payload s).2 !! language_id = Some language'
    ∧ (LanguageUpdateSchema.name payload = None →
       Language.name language' = Language.name language).
Proof.
  intros Hrow. unfold update_language. rewrite Hrow; simpl.
  rewrite lookup_insert_eq. eexists; split; [done|].
  by destruct payload as [[?|]].
Qed.

(** On success the stored Author is the old one with the payload's entries
    written over it. *)
Lemma update_author_applies_present author_id payload s author :
  authors s !! author_id = Some author →
  let author' :=
    Author.Build
      (default (Author.first_name author) (AuthorUpdateSchema.first_name payload))
      (default (Author.last_name author) (AuthorUpdateSchema.last_name payload))
      (from_option Some (Author.date_of_birth author)
         (AuthorUpdateSchema.date_of_birth payload))
      (from_option Some (Author.date_of_death author)
         (AuthorUpdateSchema.date_of_death payload)) in
  update_author author_id payload s
  = ((200, AuthorOut author_id author'), set_authors (insert author_id author') s).
Proof.
  intros Hrow. unfold update_author. rewrite Hrow.
  by destruct author, payload as [[?|] [?|] [?|] [?|]].
Qed.

(** The genre loop of [update_book] runs after [book.save()], and leaves the
    Book table as the save left it. *)
Lemma update_book_frame book_id payload s book :
  books s !! book_id = Some book →
  ∃ book',
    books (update_book book_id payload s).2 !! book_id = Some book'
    ∧ (BookUpdateSchema.title payload = None → Book.title book' = Book.title book)
    ∧ (BookUpdateSchema.summary payload = None → Book.summary book' = Book.summary book)
    ∧ (BookUpdateSchema.isbn payload = None → Book.isbn book' = Book.isbn book)
    ∧ (BookUpdateSchema.author_id payload = None → Book.author book' = Book.author book)
    ∧ (BookUpdateSchema.language_id payload = None →
       Book.language book' = Book.language book)
    ∧ (BookUpdateSchema.genre_ids payload = None →
       book_genre (update_book book_id payload s).2 = book_genre s).
Proof.
  intros Hrow. unfold update_book. rewrite Hrow.
  destruct payload as [title summary isbn author_id language_id genre_ids]; simpl.
  destruct author_id as [a|]; [destruct (authors s !! a)|]; simpl;
    try (exists book; by rewrite Hrow);
  (destruct language_id as [l|]; [destruct (languages s !! l)|]; simpl;
    try (exists book; by rewrite Hrow));
  (destruct genre_ids as [ids|];
    [match goal with
     | |- context [add_genres ?b ?l ?s0] =>
         destruct (add_genres_tables b l s0) as (_ & _ & _ & Hbooks & _);
         destruct (add_genres b l s0) as [[[]|r] s'] eqn:Hrun; simpl in *
     end; rewrite Hbooks
    |]; simpl; rewrite lookup_insert_eq; eexists; (split; [done|]);
   destruct title, summary, isbn; simpl; split_and!; done).
Qed.

Section UpdateProperties.
Context {F : Framework}.

Lemma update_bookinstance_frame instance_id instance_uuid payload s bookinstance :
  uuid_UUID instance_id = Some instance_uuid →
  bookinstances s !! instance_uuid = Some bookinstance →
  ∃ bookinstance',
    bookinstances (update_bookinstance instance_id payload s).2 !! instance_uuid
    = Some bookinstance'
    ∧ (BookInstanceUpdateSchema.book_id payload = None →
       BookInstance.book bookinstance' = BookInstance.book bookinstance)
    ∧ (BookInstanceUpdateSchema.imprint payload = None →
       BookInstance.imprint bookinstance' = BookInstance.imprint bookinstance)
    ∧ (BookInstanceUpdateSchema.due_back payload = None →
       BookInstance.due_back bookinstance' = BookInstance.due_back bookinstance)
    ∧ (BookInstanceUpdateSchema.borrower_id payload = None →
       BookInstance.borrower bookinstance' = BookInstance.borrower bookinstance)
    ∧ (BookInstanceUpdateSchema.status payload = None →
       BookInstance.status bookinstance' = BookInstance.status bookinstance).
Proof.
  intros Huuid Hrow. unfold update_bookinstance. rewrite Huuid, Hrow.
  destruct payload as [book_id imprint due_back borrower_id status]; simpl.
  destruct book_id as [b|]; [destruct (books s !! b)|]; simpl;
    try (exists bookinstance; by rewrite Hrow);
  (destruct borrower_id as [u|];
    [case_bool_decide; [|case_bool_decide]|]; simpl;
    try (exists bookinstance; by rewrite Hrow);
    rewrite lookup_insert_eq; eexists; (split; [done|]);
    destruct imprint, due_back, status; simpl; split_and!; done).
Qed.

(** C4.  For each of the five resource kinds and every existing record,
    the record stored after [update] agrees with the record stored before
    on every field whose payload entry is absent ([None]); for a Book this
    includes the genre links when [genre_ids] is absent.  This holds on
    every path of the handlers, also when the update is answered 400. *)
Theorem update_keeps_absent_fields :
  (∀ author_id payload s author,
     authors s !! author_id = Some author →
     ∃ author',
       authors (update_author author_id payload s).2 !! author_id = Some author'
       ∧ (AuthorUpdateSchema.first_name payload = None →
          Author.first_name author' = Author.first_name author)
       ∧ (AuthorUpdateSchema.last_name payload = None →
          Author.last_name author' = Author.last_name author)
       ∧ (AuthorUpdateSchema.date_of_birth payload = None →
          Author.date_of_birth author' = Author.date_of_birth author)
       ∧ (AuthorUpdateSchema.date_of_death payload = None →
          Author.date_of_death author' = Author.date_of_death author))
  ∧ (∀ genre_id payload s genre,
       genres s !! genre_id = Some genre →
       ∃ genre',
         genres (update_genre genre_id payload s).2 !! genre_id = Some genre'
         ∧ (GenreUpdateSchema.name payload = None →
            Genre.name genre' = Genre.name genre))
  ∧ (∀ language_id payload s language,
       languages s !! language_id = Some language →
       ∃ language',
         languages (update_language language_id payload s).2 !! language_id
         = Some language'
         ∧ (LanguageUpdateSchema.name payload = None →
            Language.name language' = Language.name language))
  ∧ (∀ book_id payload s book,
       books s !! book_id = Some book →
       ∃ book',
         books (update_book book_id payload s).2 !! book_id = Some book'
         ∧ (BookUpdateSchema.title payload = None → Book.title book' = Book.title book)
         ∧ (BookUpdateSchema.summary payload = None →
            Book.summary book' = Book.summary book)
         ∧ (BookUpdateSchema.isbn payload = None → Book.isbn book' = Book.isbn book)
         ∧ (BookUpdateSchema.author_id payload = None →
            Book.author book' = Book.author book)
         ∧ (BookUpdateSchema.language_id payload = None →
            Book.language book' = Book.language book)
         ∧ (BookUpdateSchema.genre_ids payload = None →
            book_genre (update_book book_id payload s).2 = book_genre s))
  ∧ (∀ instance_id instance_uuid payload s bookinstance,
       uuid_UUID instance_id = Some instance_uuid →
       bookinstances s !! instance_uuid = Some bookinstance →
       ∃ bookinstance',
         bookinstances (update_bookinstance instance_id payload s).2 !! instance_uuid
         = Some bookinstance'
         ∧ (BookInstanceUpdateSchema.book_id payload = None →
            BookInstance.book bookinstance' = BookInstance.book bookinstance)
         ∧ (BookInstanceUpdateSchema.imprint payload = None →
            BookInstance.imprint bookinstance' = BookInstance.imprint bookinstance)
         ∧ (BookInstanceUpdateSchema.due_back payload = None →
            BookInstance.due_back bookinstance' = BookInstance.due_back bookinstance)
         ∧ (BookInstanceUpdateSchema.borrower_id payload = None →
            BookInstance.borrower bookinstance' = BookInstance.borrower bookinstance)
         ∧ (BookInstanceUpdateSchema.status payload = None →
            BookInstance.status bookinstance' = BookInstance.status bookinstance)).
Proof.
  split_and!.
  - apply update_author_frame.
  - apply update_genre_frame.
  - apply update_language_frame.
  - apply update_book_frame.
  - apply update_bookinstance_frame.
Qed.

End UpdateProperties.

(** ** update_book: the genre set *)

(** C5.  For an existing Book, [update_book] leaves the genre links alone
    when [genre_ids] is absent.  When it is present and the payload's other
    references resolve, the book's links are cleared and replaced by exactly
    the listed genres (links of other books are not touched) and the answer
    is 200; with the empty list the book ends with no genre link. *)
Theorem update_book_replaces_genre_set book_id payload s book :
  books s !! book_id = Some book →
  let result := update_book book_id payload s in
  (BookUpdateSchema.genre_ids payload = None →
     book_genre result.2 = book_genre s)
  ∧ (∀ genre_ids,
       BookUpdateSchema.genre_ids payload = Some genre_ids →
       (∀ a, BookUpdateSchema.author_id payload = Some a → is_Some (authors s !! a)) →
       (∀ l, BookUpdateSchema.language_id payload = Some l → is_Some (languages s !! l)) →
       (∀ g, g ∈ genre_ids → is_Some (genres s !! g)) →
       status_code result.1 = 200
       ∧ ∀ b g, (b, g) ∈ book_genre result.2 ↔
                (b = book_id ∧ g ∈ genre_ids) ∨ (b ≠ book_id ∧ (b, g) ∈ book_genre s))
  ∧ (BookUpdateSchema.genre_ids payload = Some [] →
     (∀ a, BookUpdateSchema.author_id payload = Some a → is_Some (authors s !! a)) →
     (∀ l, BookUpdateSchema.language_id payload = Some l → is_Some (languages s !! l)) →
     status_code result.1 = 200 ∧ ∀ g, (book_id, g) ∉ book_genre result.2).
Proof.
  intros Hrow result.
  assert (Hpresent : ∀ genre_ids,
    BookUpdateSchema.genre_ids payload = Some genre_ids →
    (∀ a, BookUpdateSchema.author_id payload = Some a → is_Some (authors s !! a)) →
    (∀ l, BookUpdateSchema.language_id payload = Some l → is_Some (languages s !! l)) →
    (∀ g, g ∈ genre_ids → is_Some (genres s !! g)) →
    status_code result.1 = 200
    ∧ ∀ b g, (b, g) ∈ book_genre result.2 ↔
             (b = book_id ∧ g ∈ genre_ids) ∨ (b ≠ book_id ∧ (b, g) ∈ book_genre s)).
  { intros genre_ids Hids Hauthor Hlanguage Hgenres.
    unfold result, update_book. rewrite Hrow, Hids.
    destruct (BookUpdateSchema.author_id payload) as [a|];
      [destruct (Hauthor a eq_refl) as [? ->]|];
    (destruct (BookUpdateSchema.language_id payload) as [l|];
      [destruct (Hlanguage l eq_refl) as [? ->]|]);
    simpl;
    match goal with
    | |- context [add_genres ?b ?l ?s0] =>
        destruct (add_genres_all_resolve b l s0) as (s' & -> & Hlinks); [exact Hgenres|]
    end;
    (split; [done|]); intros b g; simpl; rewrite Hlinks; simpl;
    rewrite elem_of_filter; simpl;
    destruct (decide (b = book_id)); naive_solver. }
  split_and!.
  - intros Hnone.
    destruct (update_book_frame book_id payload s book Hrow) as (? & _ & Hframe).
    by apply Hframe.
  - exact Hpresent.
  - intros Hids Hauthor Hlanguage.
    destruct (Hpresent [] Hids Hauthor Hlanguage) as [Hok Hlinks].
    { intros g Hg. by apply elem_of_nil in Hg. }
    split; [done|]. intros g Hg. apply Hlinks in Hg as [[_ Hin]|[Hne _]]; [|done].
    by apply elem_of_nil in Hin.
Qed.

(** ** update_bookinstance: the borrower *)

Section UpdateBorrower.
Context {F : Framework}.

(** C6.  For an existing BookInstance (and a [book_id] that resolves when
    given), [update_bookinstance] treats [borrower_id] three ways: 0 clears
    the borrower, [None] leaves it as it was, and any other identifier of an
    existing User becomes the borrower, each with a 200; an identifier other
    than 0 of no User is answered 400 naming it, with the store untouched. *)
Theorem update_bookinstance_borrower_three_ways
    instance_id instance_uuid payload s bookinstance :
  uuid_UUID instance_id = Some instance_uuid →
  bookinstances s !! instance_uuid = Some bookinstance →
  (∀ b, BookInstanceUpdateSchema.book_id payload = Some b → is_Some (books s !! b)) →
  let result := update_bookinstance instance_id payload s in
  (BookInstanceUpdateSchema.borrower_id payload = Some 0 →
     status_code result.1 = 200
     ∧ ∃ stored, bookinstances result.2 !! instance_uuid = Some stored
                 ∧ BookInstance.borrower stored = None)
  ∧ (BookInstanceUpdateSchema.borrower_id payload = None →
     status_code result.1 = 200
     ∧ ∃ stored, bookinstances result.2 !! instance_uuid = Some stored
                 ∧ BookInstance.borrower stored = BookInstance.borrower bookinstance)
  ∧ (∀ borrower_id,
       BookInstanceUpdateSchema.borrower_id payload = Some borrower_id →
       borrower_id ≠ 0 → borrower_id ∈ users s →
       status_code result.1 = 200
       ∧ ∃ stored, bookinstances result.2 !! instance_uuid = Some stored
                   ∧ BookInstance.borrower stored = Some borrower_id)
  ∧ (∀ borrower_id,
       BookInstanceUpdateSchema.borrower_id payload = Some borrower_id →
       borrower_id ≠ 0 → borrower_id ∉ users s →
       result = ((400, ErrorSchema ("User with ID " +:+ pretty borrower_id +:+ " not found")),
                 s)).
Proof.
  intros Huuid Hrow Hbook result.
  unfold result, update_bookinstance. rewrite Huuid, Hrow.
  destruct (BookInstanceUpdateSchema.book_id payload) as [b|];
    [destruct (Hbook b eq_refl) as [? ->]|]; simpl.
  all: split_and!.
  all: try (intros ->; simpl; rewrite lookup_insert_eq; split; [done|];
            eexists; split; [done|];
            by destruct (BookInstanceUpdateSchema.imprint payload),
                        (BookInstanceUpdateSchema.due_back payload),
                        (BookInstanceUpdateSchema.status payload)).
  all: intros borrower_id -> Hnonzero Huser;
    rewrite (bool_decide_eq_false_2 _ Hnonzero).
  all: try (rewrite (bool_decide_eq_true_2 _ Huser); simpl;
            rewrite lookup_insert_eq; split; [done|];
            eexists; split; [done|];
            by destruct (BookInstanceUpdateSchema.imprint payload),
                        (BookInstanceUpdateSchema.due_back payload),
                        (BookInstanceUpdateSchema.status payload)).
  all: by rewrite (bool_decide_eq_false_2 _ Huser).
Qed.

End UpdateBorrower.

(** * The theorems at a concrete library *)

Lemma get_bookinstance_malformed_is_not_found_witness :
  uuid_UUID (Framework := example_framework) "not-a-uuid" = None
  ∧ get_bookinstance (F := example_framework) "not-a-uuid" library_store
    = (404, ErrorSchema "Invalid UUID format").
Proof.
  assert (Hbad : uuid_UUID (Framework := example_framework) "not-a-uuid" = None)
    by (vm_compute; reflexivity).
  split; [exact Hbad|].
  exact (proj1 (get_bookinstance_malformed_is_not_found (F := example_framework)
                  "not-a-uuid" library_store) Hbad).
Defined.

Lemma mark_returned_resets_and_is_idempotent_witness :
  let s' := set_bookinstances (insert example_uuid returned_copy) library_store in
  POST_bookinstance_return (F := example_framework) alice example_token library_store
  = ((200, BookInstanceOut example_uuid returned_copy), s')
  ∧ bookinstances s' !! example_uuid = Some returned_copy
  ∧ POST_bookinstance_return (F := example_framework) alice example_token s'
    = ((200, BookInstanceOut example_uuid returned_copy), s').
Proof.
  assert (Hperm : has_perm (Framework := example_framework) 1 "catalog.can_mark_returned"
                  = true) by (vm_compute; reflexivity).
  assert (Huuid : uuid_UUID (Framework := example_framework) example_token
                  = Some example_uuid) by (vm_compute; reflexivity).
  assert (Hrow : bookinstances library_store !! example_uuid = Some on_loan)
    by (vm_compute; reflexivity).
  exact (mark_returned_resets_and_is_idempotent (F := example_framework)
           alice 1 example_token example_uuid on_loan library_store
           eq_refl Hperm Huuid Hrow).
Defined.

Lemma mark_returned_forbidden_first_witness :
  POST_bookinstance_return (F := example_framework) bob "not-a-uuid" library_store
  = ((403, ErrorSchema "You don't have permission to mark books as returned"), library_store)
  ∧ POST_bookinstance_return (F := example_framework) bob example_token library_store
    = ((403, ErrorSchema "You don't have permission to mark books as returned"),
       library_store).
Proof.
  assert (Hperm : has_perm (Framework := example_framework) 2 "catalog.can_mark_returned"
                  = false) by (vm_compute; reflexivity).
  split.
  - exact (mark_returned_forbidden_first (F := example_framework)
             bob 2 "not-a-uuid" library_store eq_refl Hperm).
  - exact (mark_returned_forbidden_first (F := example_framework)
             bob 2 example_token library_store eq_refl Hperm).
Defined.

Lemma get_token_import_error_witness :
  authenticate (Framework := example_framework) "alice" "open sesame" = Some 1
  ∧ get_token (F := example_framework) (LoginInput.Build "alice" "open sesame")
    = (500, Unhandled "ImportError")
  ∧ authenticate (Framework := example_framework) "alice" "wrong" = None
  ∧ get_token (F := example_framework) (LoginInput.Build "alice" "wrong")
    = (500, Unhandled "ImportError").
Proof.
  split; [reflexivity|]. split; [|split; [reflexivity|]].
  - exact (proj1 (get_token_import_error (F := example_framework)
                    (LoginInput.Build "alice" "open sesame") eq_refl)).
  - exact (proj1 (get_token_import_error (F := example_framework)
                    (LoginInput.Build "alice" "wrong") eq_refl)).
Defined.

Example get_token_minting :
  get_token (F := minting_framework) (LoginInput.Build "alice" "open sesame")
  = (200, TokenOutput "token-1")
  ∧ get_token (F := minting_framework) (LoginInput.Build "alice" "wrong")
    = get_token (F := minting_framework) (LoginInput.Build "nobody" "wrong").
Proof.
  destruct (get_token_when_import_succeeds (F := minting_framework) _ eq_refl)
    as (Hvalid & _ & Huniform).
  split.
  - exact (Hvalid (LoginInput.Build "alice" "open sesame") 1 eq_refl).
  - exact (Huniform (LoginInput.Build "alice" "wrong") (LoginInput.Build "nobody" "wrong")
             eq_refl eq_refl).
Qed.

Lemma update_keeps_absent_fields_witness :
  (∃ author',
     authors (update_author 1 rename_author library_store).2 !! 1 = Some author'
     ∧ Author.last_name author' = "Herbert"
     ∧ Author.date_of_birth author' = Some (Date 1920 10 8)
     ∧ Author.date_of_death author' = Some (Date 1986 2 11))
  ∧ (∃ genre',
       genres (update_genre 2 (GenreUpdateSchema.Build None) library_store).2 !! 2
       = Some genre'
       ∧ Genre.name genre' = "Science Fiction")
  ∧ (∃ language',
       languages (update_language 1 (LanguageUpdateSchema.Build None) library_store).2 !! 1
       = Some language'
       ∧ Language.name language' = "English")
  ∧ (∃ book',
       books (update_book 1 retitle_book library_store).2 !! 1 = Some book'
       ∧ Book.summary book' = "Desert planet"
       ∧ Book.isbn book' = "9780441013593"
       ∧ Book.author book' = Some 1
       ∧ Book.language book' = Some 1
       ∧ book_genre (update_book 1 retitle_book library_store).2 = book_genre library_store)
  ∧ (∃ bookinstance',
       bookinstances
         (update_bookinstance (F := example_framework) example_token new_imprint
            library_store).2 !! example_uuid
       = Some bookinstance'
       ∧ BookInstance.book bookinstance' = 1
       ∧ BookInstance.due_back bookinstance' = Some (Date 2024 5 1)
       ∧ BookInstance.borrower bookinstance' = Some 2
       ∧ BookInstance.status bookinstance' = "o").
Proof.
  destruct (update_keeps_absent_fields (F := example_framework))
    as (Hauthor & Hgenre & Hlanguage & Hbook & Hinstance).
  assert (Huuid : uuid_UUID (Framework := example_framework) example_token
                  = Some example_uuid) by (vm_compute; reflexivity).
  split_and!.
  - destruct (Hauthor 1 rename_author library_store _ eq_refl)
      as (author' & Hstored & _ & Hlast & Hbirth & Hdeath).
    exists author'.
    exact (conj Hstored (conj (Hlast eq_refl) (conj (Hbirth eq_refl) (Hdeath eq_refl)))).
  - destruct (Hgenre 2 (GenreUpdateSchema.Build None) library_store _ eq_refl)
      as (genre' & Hstored & Hname).
    exists genre'. exact (conj Hstored (Hname eq_refl)).
  - destruct (Hlanguage 1 (LanguageUpdateSchema.Build None) library_store _ eq_refl)
      as (language' & Hstored & Hname).
    exists language'. exact (conj Hstored (Hname eq_refl)).
  - destruct (Hbook 1 retitle_book library_store dune_row eq_refl)
      as (book' & Hstored & _ & Hsummary & Hisbn & Hwriter & Hlang & Hlinks).
    exists book'.
    exact (conj Hstored (conj (Hsummary eq_refl) (conj (Hisbn eq_refl)
             (conj (Hwriter eq_refl) (conj (Hlang eq_refl) (Hlinks eq_refl)))))).
  - destruct (Hinstance example_token example_uuid new_imprint library_store on_loan
                Huuid eq_refl)
      as (bookinstance' & Hstored & Hcopy & _ & Hdue & Hborrower & Hstatus).
    exists bookinstance'.
    exact (conj Hstored (conj (Hcopy eq_refl) (conj (Hdue eq_refl)
             (conj (Hborrower eq_refl) (Hstatus eq_refl))))).
Defined.

Lemma update_book_replaces_genre_set_witness :
  book_genre (update_book 1 retitle_book library_store).2 = book_genre library_store
  ∧ (status_code (update_book 1 regenre_book library_store).1 = 200
     ∧ ∀ b g, (b, g) ∈ book_genre (update_book 1 regenre_book library_store).2 ↔
              (b = 1 ∧ g ∈ [2]) ∨ (b ≠ 1 ∧ (b, g) ∈ book_genre library_store))
  ∧ (status_code (update_book 1 ungenre_book library_store).1 = 200
     ∧ ∀ g, (1, g) ∉ book_genre (update_book 1 ungenre_book library_store).2).
Proof.
  assert (Hgenres : ∀ g, g ∈ [2] → is_Some (genres library_store !! g)).
  { intros g Hg. apply list_elem_of_singleton in Hg as ->. vm_compute. eauto. }
  split; [|split].
  - exact (proj1 (update_book_replaces_genre_set 1 retitle_book library_store dune_row
                    eq_refl) eq_refl).
  - refine (proj1 (proj2 (update_book_replaces_genre_set 1 regenre_book library_store
                            dune_row eq_refl)) [2] eq_refl _ _ _).
    + intros a Ha. discriminate Ha.
    + intros l Hl. discriminate Hl.
    + exact Hgenres.
  - refine (proj2 (proj2 (update_book_replaces_genre_set 1 ungenre_book library_store
                            dune_row eq_refl)) eq_refl _ _).
    + intros a Ha. discriminate Ha.
    + intros l Hl. discriminate Hl.
Defined.

Lemma update_bookinstance_borrower_three_ways_witness :
  (status_code
     (update_bookinstance (F := example_framework) example_token (with_borrower (Some 0))
        library_store).1 = 200
   ∧ ∃ stored,
       bookinstances
         (update_bookinstance (F := example_framework) example_token (with_borrower (Some 0))
            library_store).2 !! example_uuid = Some stored
       ∧ BookInstance.borrower stored = None)
  ∧ (status_code
       (update_bookinstance (F := example_framework) example_token (with_borrower None)
          library_store).1 = 200
     ∧ ∃ stored,
         bookinstances
           (update_bookinstance (F := example_framework) example_token (with_borrower None)
              library_store).2 !! example_uuid = Some stored
         ∧ BookInstance.borrower stored = Some 2)
  ∧ (status_code
       (update_bookinstance (F := example_framework) example_token (with_borrower (Some 1))
          library_store).1 = 200
     ∧ ∃ stored,
         bookinstances
           (update_bookinstance (F := example_framework) example_token (with_borrower (Some 1))
              library_store).2 !! example_uuid = Some stored
         ∧ BookInstance.borrower stored = Some 1)
  ∧ update_bookinstance (F := example_framework) example_token (with_borrower (Some 9))
      library_store
    = ((400, ErrorSchema "User with ID 9 not found"), library_store).
Proof.
  assert (Huuid : uuid_UUID (Framework := example_framework) example_token
                  = Some example_uuid) by (vm_compute; reflexivity).
  assert (Hrow : bookinstances library_store !! example_uuid = Some on_loan)
    by (vm_compute; reflexivity).
  assert (Hbook : ∀ borrower_id b,
            BookInstanceUpdateSchema.book_id (with_borrower borrower_id) = Some b →
            is_Some (books library_store !! b))
    by (intros borrower_id b Hb; discriminate Hb).
  assert (Hone : 1 ∈ users library_store) by (vm_compute; set_solver).
  assert (Hnine : 9 ∉ users library_store) by (vm_compute; set_solver).
  split; [|split; [|split]].
  - exact (proj1 (update_bookinstance_borrower_three_ways (F := example_framework)
                    example_token example_uuid (with_borrower (Some 0)) library_store on_loan
                    Huuid Hrow (Hbook (Some 0))) eq_refl).
  - exact (proj1 (proj2 (update_bookinstance_borrower_three_ways (F := example_framework)
                    example_token example_uuid (with_borrower None) library_store on_loan
                    Huuid Hrow (Hbook None))) eq_refl).
  - refine (proj1 (proj2 (proj2 (update_bookinstance_borrower_three_ways
                    (F := example_framework)
                    example_token example_uuid (with_borrower (Some 1)) library_store on_loan
                    Huuid Hrow (Hbook (Some 1))))) 1 eq_refl _ Hone).
    intros Hzero. discriminate Hzero.
  - refine (proj2 (proj2 (proj2 (update_bookinstance_borrower_three_ways
                    (F := example_framework)
                    example_token example_uuid (with_borrower (Some 9)) library_store on_loan
                    Huuid Hrow (Hbook (Some 9))))) 9 eq_refl _ Hnine).
    intros Hzero. discriminate Hzero.
Defined.

(** * Further properties of the handlers *)

(** ** Create, then read *)

(** X1.  [create_author] always answers 201 and stores the payload's four
    fields under a key that was free before; [get_author] with the returned
    key then answers 200 with exactly that record, and answers as before for
    every other key. *)
Theorem create_author_then_get payload s :
  let author :=
    Author.Build (AuthorCreateSchema.first_name payload)
                 (AuthorCreateSchema.last_name payload)
                 (AuthorCreateSchema.date_of_birth payload)
                 (AuthorCreateSchema.date_of_death payload) in
  ∃ author_id,
    (create_author payload s).1 = (201, AuthorOut author_id author)
    ∧ get_author author_id s = (404, ErrorSchema "Author not found")
    ∧ get_author author_id (create_author payload s).2 = (200, AuthorOut author_id author)
    ∧ ∀ other, other ≠ author_id →
               get_author other (create_author payload s).2 = get_author other s.
Proof.
  intros author. exists (next_id (authors s)). unfold create_author, get_author; simpl.
  rewrite next_id_fresh, lookup_insert_eq. split_and!; [done..|].
  intros other Hother. by rewrite lookup_insert_ne.
Qed.

(** X2.  The same round trip for Genre and Language: the created row is
    stored under a key that was free, is what [get] returns for that key, and
    no other key reads differently. *)
Theorem create_genre_language_then_get :
  (∀ payload s,
     let genre := Genre.Build (GenreCreateSchema.name payload) in
     ∃ genre_id,
       (create_genre payload s).1 = (201, GenreOut genre_id genre)
       ∧ get_genre genre_id s = (404, ErrorSchema "Genre not found")
       ∧ get_genre genre_id (create_genre payload s).2 = (200, GenreOut genre_id genre)
       ∧ ∀ other, other ≠ genre_id →
                  get_genre other (create_genre payload s).2 = get_genre other s)
  ∧ (∀ payload s,
       let language := Language.Build (LanguageCreateSchema.name payload) in
       ∃ language_id,
         (create_language payload s).1 = (201, LanguageOut language_id language)
         ∧ get_language language_id s = (404, ErrorSchema "Language not found")
         ∧ get_language language_id (create_language payload s).2
           = (200, LanguageOut language_id language)
         ∧ ∀ other, other ≠ language_id →
                    get_language other (create_language payload s).2
                    = get_language other s).
Proof.
  split.
  - intros payload s genre. exists (next_id (genres s)).
    unfold create_genre, get_genre; simpl.
    rewrite next_id_fresh, lookup_insert_eq. split_and!; [done..|].
    intros other Hother. by rewrite lookup_insert_ne.
  - intros payload s language. exists (next_id (languages s)).
    unfold create_language, get_language; simpl.
    rewrite next_id_fresh, lookup_insert_eq. split_and!; [done..|].
    intros other Hother. by rewrite lookup_insert_ne.
Qed.

(** ** create_book: success and rejected references *)

(** The reference [create_book] stores for a payload identifier: nothing for
    [None] and for 0, the identifier otherwise. *)
Lemma create_book_flow payload s :
  (∀ a, BookCreateSchema.author_id payload = Some a → a = 0 ∨ is_Some (authors s !! a)) →
  (∀ l, BookCreateSchema.language_id payload = Some l → l = 0 ∨ is_Some (languages s !! l)) →
  let book :=
    Book.Build (BookCreateSchema.title payload) (BookCreateSchema.summary payload)
               (BookCreateSchema.isbn payload)
               (kept_reference (BookCreateSchema.author_id payload))
               (kept_reference (BookCreateSchema.language_id payload)) in
  let book_id := next_id (books s) in
  create_book payload s
  = match add_genres book_id (BookCreateSchema.genre_ids payload)
            (set_books (insert book_id book) s) with
    | (Return r, s') => (r, s')
    | (Continue _, s') => ((201, BookOut book_id book), s')
    end.
Proof.
  intros Hauthor Hlanguage book book_id.
  unfold create_book, truthy, book, kept_reference, book_id.
  destruct (BookCreateSchema.author_id payload) as [a|] eqn:Ha; simpl.
  - destruct (decide (a = 0)) as [->|Ha0].
    + simpl.
      destruct (BookCreateSchema.language_id payload) as [l|] eqn:Hl; simpl; [|done].
      destruct (decide (l = 0)) as [->|Hl0]; [done|].
      rewrite (bool_decide_eq_true_2 (l ≠ 0) Hl0), (bool_decide_eq_false_2 (l = 0) Hl0).
      destruct (Hlanguage l eq_refl) as [?|[? ->]]; done.
    + rewrite (bool_decide_eq_true_2 (a ≠ 0) Ha0), (bool_decide_eq_false_2 (a = 0) Ha0).
      destruct (Hauthor a eq_refl) as [?|[? ->]]; [done|]. simpl.
      destruct (BookCreateSchema.language_id payload) as [l|] eqn:Hl; simpl; [|done].
      destruct (decide (l = 0)) as [->|Hl0]; [done|].
      rewrite (bool_decide_eq_true_2 (l ≠ 0) Hl0), (bool_decide_eq_false_2 (l = 0) Hl0).
      destruct (Hlanguage l eq_refl) as [?|[? ->]]; done.
  - destruct (BookCreateSchema.language_id payload) as [l|] eqn:Hl; simpl; [|done].
    destruct (decide (l = 0)) as [->|Hl0]; [done|].
    rewrite (bool_decide_eq_true_2 (l ≠ 0) Hl0), (bool_decide_eq_false_2 (l = 0) Hl0).
    destruct (Hlanguage l eq_refl) as [?|[? ->]]; done.
Qed.

(** X3.  When the payload's author and language identifiers are absent, 0
    or resolve, and every listed genre exists, [create_book] answers 201 and
    stores the Book under a key that was free; [get_book] returns it, its
    genre links are exactly the listed genres, every link that was there
    stays, and no other table changes. *)
Theorem create_book_success payload s :
  (∀ a, BookCreateSchema.author_id payload = Some a → a = 0 ∨ is_Some (authors s !! a)) →
  (∀ l, BookCreateSchema.language_id payload = Some l → l = 0 ∨ is_Some (languages s !! l)) →
  (∀ g, g ∈ BookCreateSchema.genre_ids payload → is_Some (genres s !! g)) →
  let book :=
    Book.Build (BookCreateSchema.title payload) (BookCreateSchema.summary payload)
               (BookCreateSchema.isbn payload)
               (kept_reference (BookCreateSchema.author_id payload))
               (kept_reference (BookCreateSchema.language_id payload)) in
  let s' := (create_book payload s).2 in
  ∃ book_id,
    (create_book payload s).1 = (201, BookOut book_id book)
    ∧ get_book book_id s = (404, ErrorSchema "Book not found")
    ∧ get_book book_id s' = (200, BookOut book_id book)
    ∧ (∀ other, other ≠ book_id → get_book other s' = get_book other s)
    ∧ (∀ b g, (b, g) ∈ book_genre s' ↔
              (b, g) ∈ book_genre s
              ∨ (b = book_id ∧ g ∈ BookCreateSchema.genre_ids payload))
    ∧ same_outside_books s s'.
Proof.
  intros Hauthor Hlanguage Hgenres book s'.
  exists (next_id (books s)).
  unfold s'. rewrite (create_book_flow payload s Hauthor Hlanguage).
  fold book.
  destruct (add_genres_all_resolve (next_id (books s)) (BookCreateSchema.genre_ids payload)
              (set_books (insert (next_id (books s)) book) s))
    as (s1 & Hrun & Hlinks); [exact Hgenres|].
  pose proof (add_genres_tables (next_id (books s)) (BookCreateSchema.genre_ids payload)
                (set_books (insert (next_id (books s)) book) s)) as Htables.
  rewrite Hrun in Htables |- *. simpl in Htables |- *.
  destruct Htables as (Ha & Hg & Hl & Hb & Hi & Hu).
  unfold get_book. rewrite Hb, next_id_fresh, lookup_insert_eq.
  split_and!; [done|done|done| | |done].
  - intros other Hother. by rewrite lookup_insert_ne.
  - intros b g. rewrite Hlinks. simpl. naive_solver.
Qed.

(** X4.  [create_book] looks the author and the language up before it writes
    anything: an identifier other than 0 without a row is answered 400 naming
    it, and the store is returned as it was (unlike a missing genre). *)
Theorem create_book_unresolved_reference payload s :
  (∀ a, BookCreateSchema.author_id payload = Some a → a ≠ 0 → authors s !! a = None →
     create_book payload s
     = ((400, ErrorSchema ("Author with ID " +:+ pretty a +:+ " not found")), s))
  ∧ (∀ l, BookCreateSchema.language_id payload = Some l → l ≠ 0 →
          languages s !! l = None →
          (∀ a, BookCreateSchema.author_id payload = Some a →
                a = 0 ∨ is_Some (authors s !! a)) →
          create_book payload s
          = ((400, ErrorSchema ("Language with ID " +:+ pretty l +:+ " not found")), s)).
Proof.
  unfold create_book, truthy. split.
  - intros a -> Ha Hnone. by rewrite (bool_decide_eq_true_2 _ Ha), Hnone.
  - intros l -> Hl Hnone Hauthor.
    rewrite (bool_decide_eq_true_2 _ Hl), Hnone.
    destruct (BookCreateSchema.author_id payload) as [a|]; [|done].
    destruct (Hauthor a eq_refl) as [->|[? Hx]]; [done|].
    case_bool_decide; [by rewrite Hx|done].
Qed.

(** ** update_book: rejected references *)

(** The genre loop stops at the first identifier without a Genre row: the
    links it has added are those of the identifiers listed before it. *)
Lemma add_genres_stops_at_first_unresolved book_id genre_ids s :
  (∃ g, g ∈ genre_ids ∧ genres s !! g = None) →
  ∃ before g after s',
    genre_ids = before ++ g :: after
    ∧ (∀ x, x ∈ before → is_Some (genres s !! x))
    ∧ genres s !! g = None
    ∧ add_genres book_id genre_ids s = (Return (400, not_found "Genre" g), s')
    ∧ ∀ link, link ∈ book_genre s' ↔
              link ∈ book_genre s ∨ (link.1 = book_id ∧ link.2 ∈ before).
Proof.
  revert s. induction genre_ids as [|g rest IH]; intros s (g0 & Hin & Hnone).
  { by apply elem_of_nil in Hin. }
  simpl. destruct (genres s !! g) as [x|] eqn:Hg.
  - destruct (IH (genre_add book_id g s)) as (before & g1 & after & s' & -> & Hres & Hg1 & Hrun & Hlinks).
    { exists g0. split; [|done]. apply elem_of_cons in Hin as [->|?]; [congruence|done]. }
    exists (g :: before), g1, after, s'. split_and!; [done| |done|done|].
    + intros y Hy. apply elem_of_cons in Hy as [->|Hy]; [eauto|by apply Hres].
    + intros [b g']. rewrite Hlinks. simpl.
      rewrite elem_of_union, elem_of_singleton, elem_of_cons. naive_solver.
  - exists [], g, rest, s. split_and!; [done| |done|done|].
    + intros y Hy. by apply elem_of_nil in Hy.
    + intros link. split; [by left|]. intros [?|[_ Hy]]; [done|].
      by apply elem_of_nil in Hy.
Qed.

(** The record [update_book] saves when the payload's author and language
    resolve. *)
Lemma update_book_flow book_id payload s book :
  books s !! book_id = Some book →
  (∀ a, BookUpdateSchema.author_id payload = Some a → is_Some (authors s !! a)) →
  (∀ l, BookUpdateSchema.language_id payload = Some l → is_Some (languages s !! l)) →
  let book' :=
    Book.Build
      (default (Book.title book) (BookUpdateSchema.title payload))
      (default (Book.summary book) (BookUpdateSchema.summary payload))
      (default (Book.isbn book) (BookUpdateSchema.isbn payload))
      (from_option Some (Book.author book) (BookUpdateSchema.author_id payload))
      (from_option Some (Book.language book) (BookUpdateSchema.language_id payload)) in
  let saved := set_books (insert book_id book') s in
  update_book book_id payload s
  = match BookUpdateSchema.genre_ids payload with
    | Some genre_ids =>
        match add_genres book_id genre_ids (genre_clear book_id saved) with
        | (Return r, s') => (r, s')
        | (Continue _, s') => ((200, BookOut book_id book'), s')
        end
    | None => ((200, BookOut book_id book'), saved)
    end.
Proof.
  intros Hrow Hauthor Hlanguage book' saved. unfold update_book, saved, book'.
  rewrite Hrow.
  destruct payload as [title summary isbn author_id language_id genre_ids]; simpl in *.
  destruct author_id as [a|]; [destruct (Hauthor a eq_refl) as [? ->]|];
    (destruct language_id as [l|]; [destruct (Hlanguage l eq_refl) as [? ->]|]);
    by destruct book, title, summary, isbn.
Qed.

(** X5.  When a listed genre of [update_book] has no row (and the payload's
    author and language resolve), the answer is 400 naming the first such
    identifier, but the update is not undone: the Book row is saved with the
    payload's fields, and the book's genre links are now exactly the genres
    listed before the missing one, whatever they were before.  Links of other
    books are as before. *)
Theorem update_book_unresolved_genre book_id payload s book genre_ids :
  books s !! book_id = Some book →
  BookUpdateSchema.genre_ids payload = Some genre_ids →
  (∀ a, BookUpdateSchema.author_id payload = Some a → is_Some (authors s !! a)) →
  (∀ l, BookUpdateSchema.language_id payload = Some l → is_Some (languages s !! l)) →
  (∃ g, g ∈ genre_ids ∧ genres s !! g = None) →
  let book' :=
    Book.Build
      (default (Book.title book) (BookUpdateSchema.title payload))
      (default (Book.summary book) (BookUpdateSchema.summary payload))
      (default (Book.isbn book) (BookUpdateSchema.isbn payload))
      (from_option Some (Book.author book) (BookUpdateSchema.author_id payload))
      (from_option Some (Book.language book) (BookUpdateSchema.language_id payload)) in
  let s' := (update_book book_id payload s).2 in
  ∃ before g after,
    genre_ids = before ++ g :: after
    ∧ (∀ x, x ∈ before → is_Some (genres s !! x))
    ∧ genres s !! g = None
    ∧ (update_book book_id payload s).1
      = (400, ErrorSchema ("Genre with ID " +:+ pretty g +:+ " not found"))
    ∧ get_book book_id s' = (200, BookOut book_id book')
    ∧ (∀ g', (book_id, g') ∈ book_genre s' ↔ g' ∈ before)
    ∧ (∀ b g', b ≠ book_id → (b, g') ∈ book_genre s' ↔ (b, g') ∈ book_genre s).
Proof.
  intros Hrow Hids Hauthor Hlanguage Hmissing book' s'.
  unfold s'. rewrite (update_book_flow book_id payload s book Hrow Hauthor Hlanguage), Hids.
  fold book'.
  set (saved := genre_clear book_id (set_books (insert book_id book') s)).
  destruct (add_genres_stops_at_first_unresolved book_id genre_ids saved Hmissing)
    as (before & g & after & s1 & Hsplit & Hres & Hg & Hrun & Hlinks).
  pose proof (add_genres_tables book_id genre_ids saved) as Htables.
  rewrite Hrun in Htables |- *. simpl in Htables |- *.
  destruct Htables as (_ & _ & _ & Hb & _).
  exists before, g, after. unfold get_book. rewrite Hb. simpl. rewrite lookup_insert_eq.
  split_and!; [done..| |].
  - intros g'. rewrite Hlinks. simpl. rewrite elem_of_filter. simpl. naive_solver.
  - intros b g' Hb'. rewrite Hlinks. simpl. rewrite elem_of_filter. simpl. naive_solver.
Qed.

(** X6.  An author or language identifier of [update_book] without a row is
    answered 400 naming it before anything is saved: the store is returned as
    it was, whatever else the payload carries.  Unlike on create, the
    identifier 0 is looked up like any other. *)
Theorem update_book_unresolved_reference book_id payload s book :
  books s !! book_id = Some book →
  (∀ a, BookUpdateSchema.author_id payload = Some a → authors s !! a = None →
     update_book book_id payload s
     = ((400, ErrorSchema ("Author with ID " +:+ pretty a +:+ " not found")), s))
  ∧ (∀ l, BookUpdateSchema.language_id payload = Some l → languages s !! l = None →
          (∀ a, BookUpdateSchema.author_id payload = Some a → is_Some (authors s !! a)) →
          update_book book_id payload s
          = ((400, ErrorSchema ("Language with ID " +:+ pretty l +:+ " not found")), s)).
Proof.
  intros Hrow. unfold update_book. rewrite Hrow. split.
  - by intros a -> ->.
  - intros l -> -> Hauthor.
    destruct (BookUpdateSchema.author_id payload) as [a|]; [|done].
    by destruct (Hauthor a eq_refl) as [? ->].
Qed.

(** ** delete_genre *)

(** X7.  [delete_genre] on an existing Genre answers 204; afterwards the
    genre reads as not found, no book is linked to it any more, every other
    genre and every other link is as before, no other table has changed, and
    deleting it again is answered 404 with the store left alone. *)
Theorem delete_genre_removes_row_and_links genre_id s genre :
  genres s !! genre_id = Some genre →
  let s' := (delete_genre genre_id s).2 in
  (delete_genre genre_id s).1 = (204, NoContent)
  ∧ get_genre genre_id s' = (404, ErrorSchema "Genre not found")
  ∧ (∀ other, other ≠ genre_id → get_genre other s' = get_genre other s)
  ∧ (∀ b g, (b, g) ∈ book_genre s' ↔ (b, g) ∈ book_genre s ∧ g ≠ genre_id)
  ∧ (authors s' = authors s ∧ languages s' = languages s ∧ books s' = books s
     ∧ bookinstances s' = bookinstances s ∧ users s' = users s)
  ∧ delete_genre genre_id s' = ((404, ErrorSchema "Genre not found"), s').
Proof.
  intros Hrow s'. unfold s', delete_genre, get_genre. rewrite Hrow. simpl.
  rewrite lookup_delete_eq. split_and!; try done.
  - intros other Hother. by rewrite lookup_delete_ne.
  - intros b g. rewrite elem_of_filter. simpl. naive_solver.
Qed.

(** ** BookInstance routes: create, delete, and what they leave alone *)

Section BookInstanceLifecycle.
Context {F : Framework}.

(** X8.  [delete_bookinstance] on the token of an existing instance answers
    204 and removes that row only; the instance then reads as not found and a
    second delete is answered 404.  A malformed token, or one of no instance,
    is answered 404 and nothing is removed. *)
Theorem delete_bookinstance_removes_one_row instance_id s :
  let s' := (delete_bookinstance instance_id s).2 in
  (∀ instance_uuid bookinstance,
     uuid_UUID instance_id = Some instance_uuid →
     bookinstances s !! instance_uuid = Some bookinstance →
     (delete_bookinstance instance_id s).1 = (204, NoContent)
     ∧ get_bookinstance instance_id s' = (404, ErrorSchema "Book instance not found")
     ∧ (∀ other, other ≠ instance_uuid →
                 bookinstances s' !! other = bookinstances s !! other)
     ∧ same_outside_bookinstances s s'
     ∧ delete_bookinstance instance_id s'
       = ((404, ErrorSchema "Book instance not found"), s'))
  ∧ (uuid_UUID instance_id = None →
     delete_bookinstance instance_id s = ((404, ErrorSchema "Invalid UUID format"), s))
  ∧ (∀ instance_uuid,
       uuid_UUID instance_id = Some instance_uuid →
       bookinstances s !! instance_uuid = None →
       delete_bookinstance instance_id s
       = ((404, ErrorSchema "Book instance not found"), s)).
Proof.
  intros s'. unfold s', delete_bookinstance, get_bookinstance. split_and!.
  - intros u row Huuid Hrow. rewrite Huuid, Hrow. simpl.
    rewrite lookup_delete_eq. split_and!; try done.
    intros other Hother. by rewrite lookup_delete_ne.
  - by intros ->.
  - by intros u -> ->.
Qed.

(** X9.  When the book exists and the borrower identifier is absent, 0 or
    that of a User, [create_bookinstance] answers 201 and stores the payload
    under the new token; [get_bookinstance] with the text of that token
    returns the stored record; no other instance and no other table
    changes. *)
Theorem create_bookinstance_then_get new_id instance_id payload s :
  is_Some (books s !! BookInstanceCreateSchema.book_id payload) →
  (∀ u, BookInstanceCreateSchema.borrower_id payload = Some u → u = 0 ∨ u ∈ users s) →
  uuid_UUID instance_id = Some new_id →
  let bookinstance :=
    BookInstance.Build (BookInstanceCreateSchema.book_id payload)
                       (BookInstanceCreateSchema.imprint payload)
                       (BookInstanceCreateSchema.due_back payload)
                       (kept_reference (BookInstanceCreateSchema.borrower_id payload))
                       (BookInstanceCreateSchema.status payload) in
  let s' := (create_bookinstance new_id payload s).2 in
  (create_bookinstance new_id payload s).1 = (201, BookInstanceOut new_id bookinstance)
  ∧ get_bookinstance instance_id s' = (200, BookInstanceOut new_id bookinstance)
  ∧ (∀ other, other ≠ new_id → bookinstances s' !! other = bookinstances s !! other)
  ∧ same_outside_bookinstances s s'.
Proof.
  intros [book Hbook] Hborrower Huuid bookinstance s'.
  unfold s', bookinstance, create_bookinstance, get_bookinstance, truthy, kept_reference.
  rewrite Hbook, Huuid.
  destruct (BookInstanceCreateSchema.borrower_id payload) as [u|]; simpl.
  - destruct (decide (u = 0)) as [->|Hu]; simpl.
    + rewrite lookup_insert_eq. split_and!; try done.
      intros other Hother. by rewrite lookup_insert_ne.
    + rewrite (bool_decide_eq_true_2 (u ≠ 0) Hu), (bool_decide_eq_false_2 (u = 0) Hu).
      destruct (Hborrower u eq_refl) as [?|Hin]; [done|].
      rewrite (bool_decide_eq_true_2 _ Hin). simpl.
      rewrite lookup_insert_eq. split_and!; try done.
      intros other Hother. by rewrite lookup_insert_ne.
  - rewrite lookup_insert_eq. split_and!; try done.
    intros other Hother. by rewrite lookup_insert_ne.
Qed.

(** X10.  [create_bookinstance] writes nothing when a reference does not
    resolve: a [book_id] without a Book is answered 400 naming it, and so is a
    borrower identifier other than 0 without a User, the store being returned
    as it was. *)
Theorem create_bookinstance_unresolved_reference new_id payload s :
  (books s !! BookInstanceCreateSchema.book_id payload = None →
     create_bookinstance new_id payload s
     = ((400, ErrorSchema ("Book with ID "
                           +:+ pretty (BookInstanceCreateSchema.book_id payload)
                           +:+ " not found")), s))
  ∧ (∀ u, is_Some (books s !! BookInstanceCreateSchema.book_id payload) →
          BookInstanceCreateSchema.borrower_id payload = Some u →
          u ≠ 0 → u ∉ users s →
          create_bookinstance new_id payload s
          = ((400, ErrorSchema ("User with ID " +:+ pretty u +:+ " not found")), s)).
Proof.
  unfold create_bookinstance, truthy. split.
  - by intros ->.
  - intros u [book ->] -> Hu Hnot.
    by rewrite (bool_decide_eq_true_2 _ Hu), (bool_decide_eq_false_2 _ Hnot).
Qed.

(** X11.  The handlers [mark_returned] and [update_bookinstance] never
    create or remove an instance and touch no table but BookInstance; the
    only row that can differ afterwards is the one the token names, and when
    the handler's answer is not 200 the store is exactly the one received. *)
Theorem bookinstance_writes_touch_one_row request instance_id payload s :
  (let s' := (mark_returned request instance_id s).2 in
   same_outside_bookinstances s s'
   ∧ (∀ other, uuid_UUID instance_id ≠ Some other →
               bookinstances s' !! other = bookinstances s !! other)
   ∧ (∀ u, is_Some (bookinstances s' !! u) ↔ is_Some (bookinstances s !! u))
   ∧ (status_code (mark_returned request instance_id s).1 ≠ 200 → s' = s))
  ∧ (let s' := (update_bookinstance instance_id payload s).2 in
     same_outside_bookinstances s s'
     ∧ (∀ other, uuid_UUID instance_id ≠ Some other →
                 bookinstances s' !! other = bookinstances s !! other)
     ∧ (∀ u, is_Some (bookinstances s' !! u) ↔ is_Some (bookinstances s !! u))
     ∧ (status_code (update_bookinstance instance_id payload s).1 ≠ 200 → s' = s)).
Proof.
  assert (Hkeys : ∀ (m : gmap N BookInstance.t) k row row' u,
            m !! k = Some row → is_Some (<[k:=row']> m !! u) ↔ is_Some (m !! u)).
  { intros m k row row' u Hk. rewrite lookup_insert_is_Some.
    destruct (decide (k = u)) as [->|]; [rewrite Hk|]; naive_solver. }
  split.
  - unfold mark_returned.
    destruct (negb _); [done|].
    destruct (uuid_UUID instance_id) as [u|] eqn:Huuid; [|done].
    destruct (bookinstances s !! u) as [row|] eqn:Hrow; [|done]. simpl.
    split_and!; [done| | |done].
    + intros other Hother. rewrite lookup_insert_ne; [done|congruence].
    + intros k. by eapply Hkeys.
  - unfold update_bookinstance.
    destruct (uuid_UUID instance_id) as [u|] eqn:Huuid; [|done].
    destruct (bookinstances s !! u) as [row|] eqn:Hrow; [|done].
    destruct (BookInstanceUpdateSchema.book_id payload) as [b|];
      [destruct (books s !! b)|]; simpl; try done;
    (destruct (BookInstanceUpdateSchema.borrower_id payload) as [w|];
      [case_bool_decide; [|case_bool_decide]|]; simpl; try done;
      (split_and!; [done| | |done];
       [intros other Hother; rewrite lookup_insert_ne; [done|congruence]
       |intros k; by eapply Hkeys])).
Qed.

(** X22.  Over HTTP the PUT route saves first and validates the response
    afterwards.  For an existing instance and resolving references, the
    store the route leaves is the one [update_bookinstance] leaves; the
    answer is the handler's 200 when the updated instance has no borrower,
    and a 500 when it has one: when [borrower_id] names a User, and when it
    is absent and the instance already had a borrower.  In that case the
    update is saved and reported as a server error. *)
Theorem PUT_bookinstance_with_borrower_is_500
    request instance_id instance_uuid payload s bookinstance :
  is_Some (user request) →
  uuid_UUID instance_id = Some instance_uuid →
  bookinstances s !! instance_uuid = Some bookinstance →
  (∀ b, BookInstanceUpdateSchema.book_id payload = Some b → is_Some (books s !! b)) →
  (∀ u, BookInstanceUpdateSchema.borrower_id payload = Some u → u = 0 ∨ u ∈ users s) →
  let handled := update_bookinstance instance_id payload s in
  let borrower_after :=
    match BookInstanceUpdateSchema.borrower_id payload with
    | Some u => if bool_decide (u = 0) then None else Some u
    | None => BookInstance.borrower bookinstance
    end in
  status_code handled.1 = 200
  ∧ (∃ stored, bookinstances handled.2 !! instance_uuid = Some stored
               ∧ BookInstance.borrower stored = borrower_after)
  ∧ (PUT_bookinstance request instance_id payload s).2 = handled.2
  ∧ (is_Some borrower_after →
     (PUT_bookinstance request instance_id payload s).1 = (500, Unhandled "ValidationError"))
  ∧ (borrower_after = None →
     (PUT_bookinstance request instance_id payload s).1 = handled.1).
Proof.
  intros [caller Hcaller] Huuid Hrow Hbook Hborrower handled borrower_after.
  unfold handled, borrower_after, PUT_bookinstance, authenticated, django_auth,
    update_bookinstance.
  rewrite Hcaller, Huuid, Hrow.
  destruct (BookInstanceUpdateSchema.book_id payload) as [b|];
    [destruct (Hbook b eq_refl) as [? ->]|]; simpl.
  all: destruct (BookInstanceUpdateSchema.borrower_id payload) as [u|];
    [destruct (decide (u = 0)) as [->|Hu];
     [|rewrite (bool_decide_eq_false_2 (u = 0) Hu);
       destruct (Hborrower u eq_refl) as [?|Hin]; [done|];
       rewrite (bool_decide_eq_true_2 _ Hin)]|]; simpl.
  all: rewrite lookup_insert_eq.
  all: destruct (BookInstanceUpdateSchema.imprint payload),
                (BookInstanceUpdateSchema.due_back payload),
                (BookInstanceUpdateSchema.status payload); simpl.
  all: try (destruct (BookInstance.borrower bookinstance) eqn:Hold; simpl).
  all: split_and!; try done; eauto.
  all: try (intros [? ?]; done).
Qed.

End BookInstanceLifecycle.

(** ** Referential integrity is kept *)

Lemma consistent_save_book s book_id book :
  consistent s →
  (∀ a, Book.author book = Some a → is_Some (authors s !! a)) →
  (∀ l, Book.language book = Some l → is_Some (languages s !! l)) →
  consistent (set_books (insert book_id book) s).
Proof.
  intros (Hbooks & Hlinks & Hinstances) Hauthor Hlanguage. split_and!; simpl.
  - intros k row Hk. apply lookup_insert_Some in Hk as [[_ <-]|[_ Hk]]; [done|].
    by apply (Hbooks k).
  - intros b g Hlink. destruct (Hlinks b g Hlink) as [Hb Hg]. split; [|done].
    apply lookup_insert_is_Some. destruct (decide (book_id = b)); auto.
  - intros u row Hrow. destruct (Hinstances u row Hrow) as [Hb Hw]. split; [|done].
    apply lookup_insert_is_Some.
    destruct (decide (book_id = BookInstance.book row)); auto.
Qed.

Lemma consistent_genre_clear s book_id :
  consistent s → consistent (genre_clear book_id s).
Proof.
  intros (Hbooks & Hlinks & Hinstances). split_and!; simpl; [done| |done].
  intros b g Hlink. apply elem_of_filter in Hlink as [_ Hlink]. by apply Hlinks.
Qed.

Lemma consistent_add_genres book_id genre_ids s :
  consistent s → is_Some (books s !! book_id) →
  consistent (add_genres book_id genre_ids s).2.
Proof.
  revert s. induction genre_ids as [|g rest IH]; intros s Hs Hbook; simpl; [done|].
  destruct (genres s !! g) as [row|] eqn:Hg; [|done].
  apply IH; [|done].
  destruct Hs as (Hbooks & Hlinks & Hinstances). split_and!; simpl; [done| |done].
  intros b g' Hlink. apply elem_of_union in Hlink as [Hlink|Hlink]; [|by apply Hlinks].
  apply elem_of_singleton in Hlink. simplify_eq. eauto.
Qed.

Lemma add_genres_result_store book_id genre_ids s (ok : Response) :
  (match add_genres book_id genre_ids s with
   | (Return r, s') => (r, s')
   | (Continue _, s') => (ok, s')
   end).2 = (add_genres book_id genre_ids s).2.
Proof. by destruct (add_genres book_id genre_ids s) as [[?|?] ?]. Qed.

(** X12.  [create_book] and [update_book] keep referential integrity on
    every path, also when they answer 400 after a partial write: each
    reference they store has been looked up first. *)
Theorem book_writes_keep_references payload book_id update s :
  consistent s →
  consistent (create_book payload s).2 ∧ consistent (update_book book_id update s).2.
Proof.
  intros Hs. split.
  - unfold create_book, truthy.
    destruct (BookCreateSchema.author_id payload) as [a|].
    1: case_bool_decide; [destruct (authors s !! a) eqn:Ha; [|done]|].
    all: simpl.
    all: destruct (BookCreateSchema.language_id payload) as [l|].
    all: try (case_bool_decide; [destruct (languages s !! l) eqn:Hl; [|done]|]).
    all: simpl; rewrite add_genres_result_store.
    all: apply consistent_add_genres; [|simpl; rewrite lookup_insert_eq; eauto].
    all: apply consistent_save_book; [done| |].
    all: simpl; intros ? ?; simplify_eq; eauto.
  - unfold update_book.
    destruct (books s !! book_id) as [book|] eqn:Hrow; [|done].
    pose proof Hs as (Hbooks & _ & _).
    destruct (Hbooks book_id book Hrow) as [Hauthor Hlanguage].
    destruct (BookUpdateSchema.author_id update) as [a|].
    1: destruct (authors s !! a) eqn:Ha; [|done].
    all: simpl.
    all: destruct (BookUpdateSchema.language_id update) as [l|].
    all: try (destruct (languages s !! l) eqn:Hl; [|done]).
    all: simpl.
    all: destruct (BookUpdateSchema.genre_ids update) as [ids|].
    all: try (rewrite add_genres_result_store;
              apply consistent_add_genres; [|simpl; rewrite lookup_insert_eq; eauto];
              apply consistent_genre_clear).
    all: simpl; apply consistent_save_book; [done| |].
    all: destruct (BookUpdateSchema.title update), (BookUpdateSchema.summary update),
                  (BookUpdateSchema.isbn update).
    all: simpl; intros ? ?; simplify_eq; eauto.
Qed.

Lemma consistent_save_bookinstance s instance_uuid row :
  consistent s →
  is_Some (books s !! BookInstance.book row) →
  (∀ u, BookInstance.borrower row = Some u → u ∈ users s) →
  consistent (set_bookinstances (insert instance_uuid row) s).
Proof.
  intros (Hbooks & Hlinks & Hinstances) Hbook Hborrower. split_and!; simpl; [done..|].
  intros k row' Hk. apply lookup_insert_Some in Hk as [[_ <-]|[_ Hk]]; [done|].
  by apply (Hinstances k).
Qed.

Section BookInstanceIntegrity.
Context {F : Framework}.

(** X13.  The four handlers that write BookInstance rows keep referential
    integrity: a stored instance always points to an existing Book, and its
    borrower, when it has one, to an existing User. *)
Theorem bookinstance_writes_keep_references new_id instance_id request create update s :
  consistent s →
  consistent (create_bookinstance new_id create s).2
  ∧ consistent (update_bookinstance instance_id update s).2
  ∧ consistent (mark_returned request instance_id s).2
  ∧ consistent (delete_bookinstance instance_id s).2.
Proof.
  intros Hs. pose proof Hs as (Hbooks & Hlinks & Hinstances). split_and!.
  - unfold create_bookinstance, truthy.
    destruct (books s !! BookInstanceCreateSchema.book_id create) eqn:Hbook; [|done].
    destruct (BookInstanceCreateSchema.borrower_id create) as [u|];
      [case_bool_decide; [case_bool_decide|]|]; simpl; try done.
    all: apply consistent_save_bookinstance; [done|simpl; eauto|].
    all: simpl; intros ? ?; simplify_eq; eauto.
  - unfold update_bookinstance.
    destruct (uuid_UUID instance_id) as [k|]; [|done].
    destruct (bookinstances s !! k) as [row|] eqn:Hrow; [|done].
    destruct (Hinstances k row Hrow) as [Hbook Hborrower].
    destruct (BookInstanceUpdateSchema.book_id update) as [b|];
      [destruct (books s !! b) eqn:Hb|]; simpl; try done.
    all: destruct (BookInstanceUpdateSchema.borrower_id update) as [u|];
      [case_bool_decide; [|case_bool_decide]|]; simpl; try done.
    all: apply consistent_save_bookinstance; [done| |].
    all: destruct (BookInstanceUpdateSchema.imprint update),
                  (BookInstanceUpdateSchema.due_back update),
                  (BookInstanceUpdateSchema.status update).
    all: simpl; eauto; intros ? ?; simplify_eq; eauto.
  - unfold mark_returned.
    destruct (negb _); [done|].
    destruct (uuid_UUID instance_id) as [k|]; [|done].
    destruct (bookinstances s !! k) as [row|] eqn:Hrow; [|done].
    destruct (Hinstances k row Hrow) as [Hbook Hborrower]. simpl.
    by apply consistent_save_bookinstance.
  - unfold delete_bookinstance.
    destruct (uuid_UUID instance_id) as [k|]; [|done].
    destruct (bookinstances s !! k) as [row|] eqn:Hrow; [|done]. simpl.
    split_and!; simpl; [done..|].
    intros k' row' Hk'. apply lookup_delete_Some in Hk' as [_ Hk'].
    by apply (Hinstances k').
Qed.

End BookInstanceIntegrity.

(** X14.  Creating or updating an Author, Genre or Language never removes a
    key, and [delete_genre] removes the links to the genre together with the
    genre: all seven handlers keep referential integrity. *)
Theorem catalog_writes_keep_references
    author_id genre_id language_id new_author new_genre new_language
    author_update genre_update language_update s :
  consistent s →
  consistent (create_author new_author s).2
  ∧ consistent (update_author author_id author_update s).2
  ∧ consistent (create_genre new_genre s).2
  ∧ consistent (update_genre genre_id genre_update s).2
  ∧ consistent (delete_genre genre_id s).2
  ∧ consistent (create_language new_language s).2
  ∧ consistent (update_language language_id language_update s).2.
Proof.
  intros (Hbooks & Hlinks & Hinstances).
  assert (Hkeep : ∀ {A} (m : gmap Z A) k v j, is_Some (m !! j) → is_Some (<[k:=v]> m !! j)).
  { intros A m k v j Hj. apply lookup_insert_is_Some. destruct (decide (k = j)); auto. }
  split_and!.
  - split_and!; simpl; [|done..].
    intros k book Hk. destruct (Hbooks k book Hk). split; eauto.
  - unfold update_author. destruct (authors s !! author_id); [|done].
    split_and!; simpl; [|done..].
    intros k book Hk. destruct (Hbooks k book Hk). split; eauto.
  - split_and!; simpl; [done| |done].
    intros b g Hlink. destruct (Hlinks b g Hlink). split; eauto.
  - unfold update_genre. destruct (genres s !! genre_id); [|done].
    split_and!; simpl; [done| |done].
    intros b g Hlink. destruct (Hlinks b g Hlink). split; eauto.
  - unfold delete_genre. destruct (genres s !! genre_id); [|done].
    split_and!; simpl; [done| |done].
    intros b g Hlink. apply elem_of_filter in Hlink as [Hne Hlink]. simpl in Hne.
    destruct (Hlinks b g Hlink). split; [done|]. by rewrite lookup_delete_ne.
  - split_and!; simpl; [|done..].
    intros k book Hk. destruct (Hbooks k book Hk). split; eauto.
  - unfold update_language. destruct (languages s !! language_id); [|done].
    split_and!; simpl; [|done..].
    intros k book Hk. destruct (Hbooks k book Hk). split; eauto.
Qed.

(** ** Updates: what no payload can do, and repeating an update *)

(** X18.  No update payload can reset an optional field to null: an Author's
    dates, a Book's author and language and a BookInstance's due date, once
    set, are still set after any [update] of that record, because [None] in
    the payload means "leave alone".  (Only the borrower has a clearing
    value, 0.) *)
Theorem update_cannot_clear_optional_fields :
  (∀ author_id payload s author,
     authors s !! author_id = Some author →
     ∃ author',
       authors (update_author author_id payload s).2 !! author_id = Some author'
       ∧ (is_Some (Author.date_of_birth author) → is_Some (Author.date_of_birth author'))
       ∧ (is_Some (Author.date_of_death author) → is_Some (Author.date_of_death author')))
  ∧ (∀ book_id payload s book,
       books s !! book_id = Some book →
       ∃ book',
         books (update_book book_id payload s).2 !! book_id = Some book'
         ∧ (is_Some (Book.author book) → is_Some (Book.author book'))
         ∧ (is_Some (Book.language book) → is_Some (Book.language book')))
  ∧ (∀ (F : Framework) instance_id instance_uuid payload s bookinstance,
       uuid_UUID instance_id = Some instance_uuid →
       bookinstances s !! instance_uuid = Some bookinstance →
       ∃ bookinstance',
         bookinstances (update_bookinstance instance_id payload s).2 !! instance_uuid
         = Some bookinstance'
         ∧ (is_Some (BookInstance.due_back bookinstance) →
            is_Some (BookInstance.due_back bookinstance'))).
Proof.
  split_and!.
  - intros author_id payload s author Hrow.
    rewrite (update_author_applies_present author_id payload s author Hrow). simpl.
    rewrite lookup_insert_eq. eexists; split; [done|].
    destruct payload as [? ? [?|] [?|]]; simpl; eauto.
  - intros book_id payload s book Hrow.
    destruct (update_book_frame book_id payload s book Hrow)
      as (book' & Hstored & _ & _ & _ & Hauthor & Hlanguage & _).
    exists book'. split; [done|].
    revert Hstored Hauthor Hlanguage. unfold update_book. rewrite Hrow.
    destruct (BookUpdateSchema.author_id payload) as [a|];
      [destruct (authors s !! a)|]; simpl.
    all: try (rewrite Hrow; intros; simplify_eq; done).
    all: destruct (BookUpdateSchema.language_id payload) as [l|];
      [destruct (languages s !! l)|]; simpl.
    all: try (rewrite Hrow; intros; simplify_eq; done).
    all: destruct (BookUpdateSchema.genre_ids payload) as [ids|];
      [rewrite add_genres_result_store;
       match goal with
       | |- context [add_genres ?b ?l ?s0] =>
           destruct (add_genres_tables b l s0) as (_ & _ & _ & -> & _)
       end|].
    all: simpl; rewrite lookup_insert_eq; intros ? Hwriter Hlang; simplify_eq.
    all: destruct (BookUpdateSchema.title payload), (BookUpdateSchema.summary payload),
                  (BookUpdateSchema.isbn payload); simpl in *.
    all: split; intros; try (rewrite Hwriter by done); try (rewrite Hlang by done); eauto.
  - intros F instance_id instance_uuid payload s row Huuid Hrow.
    unfold update_bookinstance. rewrite Huuid, Hrow.
    destruct (BookInstanceUpdateSchema.book_id payload) as [b|];
      [destruct (books s !! b)|]; simpl.
    all: try (exists row; by rewrite Hrow).
    all: destruct (BookInstanceUpdateSchema.borrower_id payload) as [u|];
      [case_bool_decide; [|case_bool_decide]|]; simpl.
    all: try (exists row; by rewrite Hrow).
    all: rewrite lookup_insert_eq; eexists; (split; [done|]).
    all: destruct (BookInstanceUpdateSchema.imprint payload),
                  (BookInstanceUpdateSchema.due_back payload),
                  (BookInstanceUpdateSchema.status payload); simpl; eauto.
Qed.

(** X16.  Repeating an update of an Author, Genre, Language or BookInstance
    changes nothing further: the second identical request gets the same
    response as the first and leaves the store the first one left. *)
Theorem update_twice_is_update_once :
  (∀ author_id payload s,
     update_author author_id payload (update_author author_id payload s).2
     = update_author author_id payload s)
  ∧ (∀ genre_id payload s,
       update_genre genre_id payload (update_genre genre_id payload s).2
       = update_genre genre_id payload s)
  ∧ (∀ language_id payload s,
       update_language language_id payload (update_language language_id payload s).2
       = update_language language_id payload s)
  ∧ (∀ (F : Framework) instance_id payload s,
       update_bookinstance instance_id payload (update_bookinstance instance_id payload s).2
       = update_bookinstance instance_id payload s).
Proof.
  split_and!.
  - intros author_id payload s. unfold update_author.
    destruct (authors s !! author_id) as [author|] eqn:Hrow; simpl; [|by rewrite Hrow].
    rewrite lookup_insert_eq. unfold set_authors; simpl. rewrite insert_insert_eq.
    by destruct payload as [[?|] [?|] [?|] [?|]].
  - intros genre_id payload s. unfold update_genre.
    destruct (genres s !! genre_id) as [genre|] eqn:Hrow; simpl; [|by rewrite Hrow].
    rewrite lookup_insert_eq. unfold set_genres; simpl. rewrite insert_insert_eq.
    by destruct payload as [[?|]].
  - intros language_id payload s. unfold update_language.
    destruct (languages s !! language_id) as [language|] eqn:Hrow; simpl;
      [|by rewrite Hrow].
    rewrite lookup_insert_eq. unfold set_languages; simpl. rewrite insert_insert_eq.
    by destruct payload as [[?|]].
  - intros F instance_id payload s. unfold update_bookinstance.
    destruct (uuid_UUID instance_id) as [k|]; [|done].
    destruct (bookinstances s !! k) as [row|] eqn:Hrow; simpl; [|by rewrite Hrow].
    destruct (BookInstanceUpdateSchema.book_id payload) as [b|] eqn:Hb;
      [destruct (books s !! b) eqn:Hbook|]; simpl.
    all: try (by rewrite Hrow, ?Hbook).
    all: destruct (BookInstanceUpdateSchema.borrower_id payload) as [u|] eqn:Hu;
      [case_bool_decide; [|case_bool_decide]|]; simpl.
    all: rewrite ?Hrow, ?Hbook; simpl; try done.
    all: try (case_bool_decide; done).
    all: rewrite lookup_insert_eq, ?Hbook; simpl.
    all: repeat (case_bool_decide; try done).
    all: unfold set_bookinstances; simpl; rewrite insert_insert_eq.
    all: by destruct (BookInstanceUpdateSchema.imprint payload),
                     (BookInstanceUpdateSchema.due_back payload),
                     (BookInstanceUpdateSchema.status payload).
Qed.

(** What the genre loop does depends on the Genre table alone: it adds a
    fixed set of links of the book to whatever links the store holds. *)
Lemma add_genres_shape book_id genre_ids (G : gmap Z Genre.t) :
  ∃ (f : flow unit) (P : gset (Z * Z)),
    (∀ link, link ∈ P → link.1 = book_id)
    ∧ ∀ s, genres s = G →
           add_genres book_id genre_ids s = (f, set_book_genre (λ links, P ∪ links) s).
Proof.
  induction genre_ids as [|g rest (f & P & HP & IH)].
  - exists (Continue ()), ∅. split; [set_solver|].
    intros [] _; simpl. unfold set_book_genre; simpl. by rewrite (left_id_L ∅ (∪)).
  - destruct (G !! g) as [row|] eqn:Hg.
    + exists f, (P ∪ {[ (book_id, g) ]}). split.
      { intros link [?|Heq%elem_of_singleton]%elem_of_union; [by apply HP|by subst]. }
      intros s HG. simpl. rewrite HG, Hg.
      rewrite (IH (genre_add book_id g s)) by done.
      unfold set_book_genre, genre_add; simpl. by rewrite (assoc_L (∪)).
    + exists (Return (400, not_found "Genre" g)), ∅. split; [set_solver|].
      intros [] HG; simpl in *. rewrite HG, Hg.
      unfold set_book_genre; simpl. by rewrite (left_id_L ∅ (∪)).
Qed.

(** Clearing a book's links and adding the same set again gives the same
    link table. *)
Lemma rebuild_links (P L : gset (Z * Z)) book_id :
  (∀ link, link ∈ P → link.1 = book_id) →
  P ∪ filter (λ link, link.1 ≠ book_id) (P ∪ filter (λ link, link.1 ≠ book_id) L)
  = P ∪ filter (λ link, link.1 ≠ book_id) L.
Proof.
  intros HP. apply set_eq. intros link.
  rewrite !elem_of_union, !elem_of_filter, !elem_of_union, !elem_of_filter.
  split; [|naive_solver].
  intros [?|[Hne [Hin|?]]]; [by left| |by right].
  by apply HP in Hin.
Qed.

(** X17.  [update_book] is idempotent on every path, the rejected ones
    included: sending the same PUT again gets the same response and leaves
    the store the first request left (the saved fields, and the genre links
    rebuilt from the same list). *)
Theorem update_book_twice_is_update_once book_id payload s :
  update_book book_id payload (update_book book_id payload s).2
  = update_book book_id payload s.
Proof.
  unfold update_book at 2 3.
  destruct (books s !! book_id) as [book|] eqn:Hrow;
    [|by simpl; unfold update_book; rewrite Hrow].
  destruct (BookUpdateSchema.author_id payload) as [a|] eqn:Ha;
    [destruct (authors s !! a) as [x|] eqn:Hx|]; simpl.
  2: by unfold update_book; rewrite Hrow, Ha, Hx.
  all: destruct (BookUpdateSchema.language_id payload) as [l|] eqn:Hl;
    [destruct (languages s !! l) as [y|] eqn:Hy|]; simpl.
  all: try (by unfold update_book; rewrite Hrow, Ha, ?Hx, Hl, ?Hy).
  all: destruct (BookUpdateSchema.genre_ids payload) as [ids|] eqn:Hids.
  all: try (destruct (add_genres_shape book_id ids (genres s)) as (f & P & HP & Hshape);
            rewrite Hshape by done).
  all: try (destruct f as [[]|r]).
  all: unfold update_book; simpl; rewrite lookup_insert_eq, Ha, Hl, Hids, ?Hx, ?Hy; simpl.
  all: try (rewrite Hshape by done).
  all: destruct book, (BookUpdateSchema.title payload),
                (BookUpdateSchema.summary payload), (BookUpdateSchema.isbn payload); simpl.
  all: unfold set_book_genre, genre_clear, set_books; simpl; rewrite insert_insert_eq.
  all: by rewrite ?rebuild_links.
Qed.

(** ** Handlers that write one table *)

(** X15.  Apart from the two Book handlers with their genre loop, a handler
    changes the store only when it answers with its success status: for
    [update_author], [update_genre], [update_language], [delete_genre],
    [create_bookinstance] and [delete_bookinstance] any other answer comes
    with the store exactly as received. *)
Theorem single_table_writes_are_all_or_nothing :
  (∀ author_id payload s,
     status_code (update_author author_id payload s).1 ≠ 200 →
     (update_author author_id payload s).2 = s)
  ∧ (∀ genre_id payload s,
       status_code (update_genre genre_id payload s).1 ≠ 200 →
       (update_genre genre_id payload s).2 = s)
  ∧ (∀ language_id payload s,
       status_code (update_language language_id payload s).1 ≠ 200 →
       (update_language language_id payload s).2 = s)
  ∧ (∀ genre_id s,
       status_code (delete_genre genre_id s).1 ≠ 204 → (delete_genre genre_id s).2 = s)
  ∧ (∀ new_id payload s,
       status_code (create_bookinstance new_id payload s).1 ≠ 201 →
       (create_bookinstance new_id payload s).2 = s)
  ∧ (∀ (F : Framework) instance_id s,
       status_code (delete_bookinstance instance_id s).1 ≠ 204 →
       (delete_bookinstance instance_id s).2 = s).
Proof.
  split_and!.
  - intros author_id payload s. unfold update_author.
    by destruct (authors s !! author_id).
  - intros genre_id payload s. unfold update_genre. by destruct (genres s !! genre_id).
  - intros language_id payload s. unfold update_language.
    by destruct (languages s !! language_id).
  - intros genre_id s. unfold delete_genre. by destruct (genres s !! genre_id).
  - intros new_id payload s. unfold create_bookinstance.
    destruct (books s !! BookInstanceCreateSchema.book_id payload); [|done].
    destruct (BookInstanceCreateSchema.borrower_id payload) as [u|]; [|done].
    destruct (truthy u); [|done]. by case_bool_decide.
  - intros F instance_id s. unfold delete_bookinstance.
    destruct (uuid_UUID instance_id) as [k|]; [|done].
    by destruct (bookinstances s !! k).
Qed.

(** ** Composing requests *)

(** X19.  Create an Author, change only the first name with
    [update_author], read it back: the first name is the new one and the
    three other fields are those of the create payload. *)
Theorem create_update_get_author payload first_name s :
  let created := create_author payload s in
  let update := AuthorUpdateSchema.Build (Some first_name) None None None in
  ∃ author_id,
    created.1
    = (201, AuthorOut author_id
              (Author.Build (AuthorCreateSchema.first_name payload)
                            (AuthorCreateSchema.last_name payload)
                            (AuthorCreateSchema.date_of_birth payload)
                            (AuthorCreateSchema.date_of_death payload)))
    ∧ get_author author_id (update_author author_id update created.2).2
      = (200, AuthorOut author_id
                (Author.Build first_name
                              (AuthorCreateSchema.last_name payload)
                              (AuthorCreateSchema.date_of_birth payload)
                              (AuthorCreateSchema.date_of_death payload))).
Proof.
  intros created update. exists (next_id (authors s)).
  unfold created, update, create_author, update_author, get_author; simpl.
  rewrite lookup_insert_eq; simpl. by rewrite lookup_insert_eq.
Qed.

Section CreateThenDelete.
Context {F : Framework}.

(** X20.  Deleting a BookInstance right after creating it, under a token
    that was not in use, gives back the store as it was before the create. *)
Theorem create_then_delete_bookinstance new_id instance_id payload s :
  uuid_UUID instance_id = Some new_id →
  bookinstances s !! new_id = None →
  status_code (create_bookinstance new_id payload s).1 = 201 →
  delete_bookinstance instance_id (create_bookinstance new_id payload s).2
  = ((204, NoContent), s).
Proof.
  intros Huuid Hfree. unfold create_bookinstance, delete_bookinstance. rewrite Huuid.
  assert (Hundo : ∀ row, set_bookinstances (delete new_id)
                           (set_bookinstances (insert new_id row) s) = s).
  { intros row. destruct s; unfold set_bookinstances; simpl in *.
    by rewrite delete_insert_eq, delete_id. }
  destruct (books s !! BookInstanceCreateSchema.book_id payload); [|done].
  destruct (BookInstanceCreateSchema.borrower_id payload) as [u|];
    [destruct (truthy u); [case_bool_decide|]|]; simpl; try done.
  all: intros _; rewrite lookup_insert_eq; by rewrite Hundo.
Qed.

End CreateThenDelete.

(** X21.  In a store with referential integrity, deleting a Genre right
    after creating it gives back the store as it was: the new key was free,
    so no link could point to it. *)
Theorem create_then_delete_genre payload s :
  consistent s →
  ∃ genre_id,
    (create_genre payload s).1
    = (201, GenreOut genre_id (Genre.Build (GenreCreateSchema.name payload)))
    ∧ delete_genre genre_id (create_genre payload s).2 = ((204, NoContent), s).
Proof.
  intros (_ & Hlinks & _). exists (next_id (genres s)). split; [done|].
  unfold create_genre, delete_genre; simpl. rewrite lookup_insert_eq.
  destruct s as [A G L B K I U]; unfold Genre_delete, set_genres, set_book_genre;
    simpl in *.
  rewrite delete_insert_eq, delete_id by apply next_id_fresh.
  do 2 f_equal. apply set_eq. intros [b g]. rewrite elem_of_filter. simpl.
  split; [naive_solver|]. intros Hlink. split; [|done].
  intros ->. destruct (Hlinks b _ Hlink) as [_ [x Hx]].
  by rewrite next_id_fresh in Hx.
Qed.

(** * The further properties at the concrete library *)

Lemma library_store_consistent : consistent library_store.
Proof.
  unfold consistent, library_store; simpl. split_and!.
  - intros book_id book Hrow. apply lookup_singleton_Some in Hrow as [<- <-].
    split; intros k Hk; injection Hk as <-; vm_compute; eauto.
  - intros b g Hlink. apply elem_of_singleton in Hlink. injection Hlink as -> ->.
    split; vm_compute; eauto.
  - intros u row Hrow. apply lookup_singleton_Some in Hrow as [<- <-].
    split; [vm_compute; eauto|].
    intros k Hk; injection Hk as <-. set_solver.
Qed.

Lemma create_book_success_witness :
  ∃ book_id,
    (create_book children_of_dune library_store).1 = (201, BookOut book_id children_of_dune_row)
    ∧ get_book book_id library_store = (404, ErrorSchema "Book not found")
    ∧ get_book book_id (create_book children_of_dune library_store).2
      = (200, BookOut book_id children_of_dune_row)
    ∧ (∀ other, other ≠ book_id →
         get_book other (create_book children_of_dune library_store).2
         = get_book other library_store)
    ∧ (∀ b g, (b, g) ∈ book_genre (create_book children_of_dune library_store).2 ↔
              (b, g) ∈ book_genre library_store ∨ (b = book_id ∧ g ∈ [2; 1]))
    ∧ same_outside_books library_store (create_book children_of_dune library_store).2.
Proof.
  refine (create_book_success children_of_dune library_store _ _ _).
  - intros a Ha. injection Ha as <-. right. vm_compute. eauto.
  - intros l Hl. injection Hl as <-. by left.
  - intros g Hg. apply elem_of_cons in Hg as [->|Hg]; [vm_compute; eauto|].
    apply list_elem_of_singleton in Hg as ->. vm_compute. eauto.
Defined.

Lemma create_book_unresolved_reference_witness :
  create_book (solaris (Some 9) None) library_store
  = ((400, ErrorSchema "Author with ID 9 not found"), library_store)
  ∧ create_book (solaris (Some 1) (Some 9)) library_store
    = ((400, ErrorSchema "Language with ID 9 not found"), library_store).
Proof.
  split.
  - refine (proj1 (create_book_unresolved_reference (solaris (Some 9) None) library_store)
              9 eq_refl _ eq_refl).
    intros Hzero. discriminate Hzero.
  - refine (proj2 (create_book_unresolved_reference (solaris (Some 1) (Some 9))
                     library_store) 9 eq_refl _ eq_refl _).
    + intros Hzero. discriminate Hzero.
    + intros a Ha. injection Ha as <-. right. vm_compute. eauto.
Defined.

Lemma update_book_unresolved_genre_witness :
  ∃ before g after,
    [2; 7; 1] = before ++ g :: after
    ∧ (∀ x, x ∈ before → is_Some (genres library_store !! x))
    ∧ genres library_store !! g = None
    ∧ (update_book 1 illustrated_dune library_store).1
      = (400, ErrorSchema ("Genre with ID " +:+ pretty g +:+ " not found"))
    ∧ get_book 1 (update_book 1 illustrated_dune library_store).2
      = (200, BookOut 1 illustrated_dune_row)
    ∧ (∀ g', (1, g') ∈ book_genre (update_book 1 illustrated_dune library_store).2 ↔
             g' ∈ before)
    ∧ (∀ b g', b ≠ 1 →
         (b, g') ∈ book_genre (update_book 1 illustrated_dune library_store).2 ↔
         (b, g') ∈ book_genre library_store).
Proof.
  refine (update_book_unresolved_genre 1 illustrated_dune library_store dune_row [2; 7; 1]
            eq_refl eq_refl _ _ _).
  - intros a Ha. discriminate Ha.
  - intros l Hl. discriminate Hl.
  - exists 7. split; [|reflexivity].
    apply elem_of_cons. right. apply elem_of_cons. by left.
Defined.

Lemma update_book_unresolved_reference_witness :
  update_book 1 (reassign_book (Some 9) None) library_store
  = ((400, ErrorSchema "Author with ID 9 not found"), library_store)
  ∧ update_book 1 (reassign_book (Some 1) (Some 0)) library_store
    = ((400, ErrorSchema "Language with ID 0 not found"), library_store).
Proof.
  split.
  - exact (proj1 (update_book_unresolved_reference 1 (reassign_book (Some 9) None)
                    library_store dune_row eq_refl) 9 eq_refl eq_refl).
  - refine (proj2 (update_book_unresolved_reference 1 (reassign_book (Some 1) (Some 0))
                     library_store dune_row eq_refl) 0 eq_refl eq_refl _).
    intros a Ha. injection Ha as <-. vm_compute. eauto.
Defined.

Lemma delete_genre_removes_row_and_links_witness :
  (delete_genre 1 library_store).1 = (204, NoContent)
  ∧ get_genre 1 (delete_genre 1 library_store).2 = (404, ErrorSchema "Genre not found")
  ∧ (∀ other, other ≠ 1 →
       get_genre other (delete_genre 1 library_store).2 = get_genre other library_store)
  ∧ (∀ b g, (b, g) ∈ book_genre (delete_genre 1 library_store).2 ↔
            (b, g) ∈ book_genre library_store ∧ g ≠ 1)
  ∧ (authors (delete_genre 1 library_store).2 = authors library_store
     ∧ languages (delete_genre 1 library_store).2 = languages library_store
     ∧ books (delete_genre 1 library_store).2 = books library_store
     ∧ bookinstances (delete_genre 1 library_store).2 = bookinstances library_store
     ∧ users (delete_genre 1 library_store).2 = users library_store)
  ∧ delete_genre 1 (delete_genre 1 library_store).2
    = ((404, ErrorSchema "Genre not found"), (delete_genre 1 library_store).2).
Proof.
  exact (delete_genre_removes_row_and_links 1 library_store (Genre.Build "Fantasy") eq_refl).
Defined.

Lemma delete_bookinstance_removes_one_row_witness :
  ((delete_bookinstance (F := example_framework) example_token library_store).1
   = (204, NoContent)
   ∧ get_bookinstance (F := example_framework) example_token
       (delete_bookinstance (F := example_framework) example_token library_store).2
     = (404, ErrorSchema "Book instance not found"))
  ∧ delete_bookinstance (F := example_framework) "not-a-uuid" library_store
    = ((404, ErrorSchema "Invalid UUID format"), library_store)
  ∧ delete_bookinstance (F := example_framework) second_token library_store
    = ((404, ErrorSchema "Book instance not found"), library_store).
Proof.
  assert (Huuid : uuid_UUID (Framework := example_framework) example_token
                  = Some example_uuid) by (vm_compute; reflexivity).
  assert (Hsecond : uuid_UUID (Framework := example_framework) second_token = Some 42%N)
    by (vm_compute; reflexivity).
  assert (Hbad : uuid_UUID (Framework := example_framework) "not-a-uuid" = None)
    by (vm_compute; reflexivity).
  split; [|split].
  - destruct (proj1 (delete_bookinstance_removes_one_row (F := example_framework)
                       example_token library_store) example_uuid on_loan Huuid eq_refl)
      as (Hstatus & Hgone & _).
    exact (conj Hstatus Hgone).
  - exact (proj1 (proj2 (delete_bookinstance_removes_one_row (F := example_framework)
                           "not-a-uuid" library_store)) Hbad).
  - exact (proj2 (proj2 (delete_bookinstance_removes_one_row (F := example_framework)
                           second_token library_store)) 42%N Hsecond eq_refl).
Defined.

Lemma create_bookinstance_then_get_witness :
  (create_bookinstance 42%N (second_copy 1 (Some 0)) library_store).1
  = (201, BookInstanceOut 42%N second_copy_row)
  ∧ get_bookinstance (F := example_framework) second_token
      (create_bookinstance 42%N (second_copy 1 (Some 0)) library_store).2
    = (200, BookInstanceOut 42%N second_copy_row)
  ∧ (∀ other, other ≠ 42%N →
       bookinstances (create_bookinstance 42%N (second_copy 1 (Some 0)) library_store).2
         !! other
       = bookinstances library_store !! other)
  ∧ same_outside_bookinstances library_store
      (create_bookinstance 42%N (second_copy 1 (Some 0)) library_store).2.
Proof.
  assert (Hsecond : uuid_UUID (Framework := example_framework) second_token = Some 42%N)
    by (vm_compute; reflexivity).
  refine (create_bookinstance_then_get (F := example_framework) 42%N second_token
            (second_copy 1 (Some 0)) library_store _ _ Hsecond).
  - vm_compute. eauto.
  - intros u Hu. injection Hu as <-. by left.
Defined.

Lemma create_bookinstance_unresolved_reference_witness :
  create_bookinstance 42%N (second_copy 9 None) library_store
  = ((400, ErrorSchema "Book with ID 9 not found"), library_store)
  ∧ create_bookinstance 42%N (second_copy 1 (Some 9)) library_store
    = ((400, ErrorSchema "User with ID 9 not found"), library_store).
Proof.
  split.
  - exact (proj1 (create_bookinstance_unresolved_reference 42%N (second_copy 9 None)
                    library_store) eq_refl).
  - refine (proj2 (create_bookinstance_unresolved_reference 42%N (second_copy 1 (Some 9))
                     library_store) 9 _ eq_refl _ _).
    + vm_compute. eauto.
    + intros Hzero. discriminate Hzero.
    + vm_compute. set_solver.
Defined.

Lemma bookinstance_writes_touch_one_row_witness :
  (mark_returned (F := example_framework) bob example_token library_store).2
  = library_store
  ∧ (update_bookinstance (F := example_framework) example_token (with_borrower (Some 9))
       library_store).2
    = library_store.
Proof.
  destruct (bookinstance_writes_touch_one_row (F := example_framework)
              bob example_token empty_update library_store)
    as ((_ & _ & _ & Hreturn) & _).
  destruct (bookinstance_writes_touch_one_row (F := example_framework)
              alice example_token (with_borrower (Some 9)) library_store)
    as (_ & (_ & _ & _ & Hupdate)).
  split.
  - apply Hreturn. vm_compute. intros Heq. discriminate Heq.
  - apply Hupdate. vm_compute. intros Heq. discriminate Heq.
Defined.

Lemma PUT_bookinstance_with_borrower_is_500_witness :
  PUT_bookinstance (F := example_framework) alice example_token new_imprint library_store
  = ((500, Unhandled "ValidationError"),
     set_bookinstances
       (insert example_uuid
          (BookInstance.Build 1 "Chilton, 1965" (Some (Date 2024 5 1)) (Some 2) "o"))
       library_store)
  ∧ PUT_bookinstance (F := example_framework) alice example_token (with_borrower (Some 0))
      library_store
    = update_bookinstance (F := example_framework) example_token (with_borrower (Some 0))
        library_store.
Proof.
  assert (Huuid : uuid_UUID (Framework := example_framework) example_token
                  = Some example_uuid) by (vm_compute; reflexivity).
  assert (Halice : is_Some (user alice)) by (simpl; eauto).
  assert (Hbook : ∀ payload b,
            BookInstanceUpdateSchema.book_id payload = None →
            BookInstanceUpdateSchema.book_id payload = Some b →
            is_Some (books library_store !! b))
    by (intros payload b Hnone Hb; rewrite Hnone in Hb; discriminate Hb).
  split.
  - destruct (PUT_bookinstance_with_borrower_is_500 (F := example_framework)
                alice example_token example_uuid new_imprint library_store on_loan
                Halice Huuid eq_refl (λ b, Hbook new_imprint b eq_refl))
      as (_ & _ & Hstore & Hanswer & _).
    { intros u Hu. discriminate Hu. }
    apply injective_projections.
    + simpl. apply Hanswer. simpl. eauto.
    + simpl. rewrite Hstore. vm_compute. reflexivity.
  - destruct (PUT_bookinstance_with_borrower_is_500 (F := example_framework)
                alice example_token example_uuid (with_borrower (Some 0)) library_store
                on_loan Halice Huuid eq_refl
                (λ b, Hbook (with_borrower (Some 0)) b eq_refl))
      as (_ & _ & Hstore & _ & Hanswer).
    { intros u Hu. injection Hu as <-. by left. }
    apply injective_projections; [by apply Hanswer|exact Hstore].
Defined.

Lemma book_writes_keep_references_witness :
  consistent (create_book dune library_store).2
  ∧ consistent (update_book 1 illustrated_dune library_store).2.
Proof.
  exact (book_writes_keep_references dune 1 illustrated_dune library_store
           library_store_consistent).
Defined.

Lemma bookinstance_writes_keep_references_witness :
  consistent (create_bookinstance 42%N (second_copy 1 (Some 2)) library_store).2
  ∧ consistent
      (update_bookinstance (F := example_framework) example_token (with_borrower (Some 1))
         library_store).2
  ∧ consistent (mark_returned (F := example_framework) alice example_token library_store).2
  ∧ consistent (delete_bookinstance (F := example_framework) example_token library_store).2.
Proof.
  exact (bookinstance_writes_keep_references (F := example_framework) 42%N example_token
           alice (second_copy 1 (Some 2)) (with_borrower (Some 1)) library_store
           library_store_consistent).
Defined.

Lemma catalog_writes_keep_references_witness :
  consistent (create_author herbert library_store).2
  ∧ consistent (update_author 1 rename_author library_store).2
  ∧ consistent (create_genre (GenreCreateSchema.Build "Western") library_store).2
  ∧ consistent (update_genre 1 (GenreUpdateSchema.Build (Some "High Fantasy")) library_store).2
  ∧ consistent (delete_genre 1 library_store).2
  ∧ consistent (create_language (LanguageCreateSchema.Build "French") library_store).2
  ∧ consistent
      (update_language 1 (LanguageUpdateSchema.Build (Some "British English"))
         library_store).2.
Proof.
  exact (catalog_writes_keep_references 1 1 1 herbert (GenreCreateSchema.Build "Western")
           (LanguageCreateSchema.Build "French") rename_author
           (GenreUpdateSchema.Build (Some "High Fantasy"))
           (LanguageUpdateSchema.Build (Some "British English"))
           library_store library_store_consistent).
Defined.

Lemma single_table_writes_are_all_or_nothing_witness :
  (update_author 9 rename_author library_store).2 = library_store
  ∧ (delete_genre 9 library_store).2 = library_store
  ∧ (create_bookinstance 42%N (second_copy 1 (Some 9)) library_store).2 = library_store
  ∧ (delete_bookinstance (F := example_framework) "not-a-uuid" library_store).2
    = library_store.
Proof.
  destruct single_table_writes_are_all_or_nothing
    as (Hauthor & _ & _ & Hgenre & Hcreate & Hdelete).
  split_and!.
  - apply Hauthor. vm_compute. intros Heq. discriminate Heq.
  - apply Hgenre. vm_compute. intros Heq. discriminate Heq.
  - apply Hcreate. vm_compute. intros Heq. discriminate Heq.
  - apply (Hdelete example_framework). vm_compute. intros Heq. discriminate Heq.
Defined.

Lemma update_cannot_clear_optional_fields_witness :
  (∃ author',
     authors (update_author 1 rename_author library_store).2 !! 1 = Some author'
     ∧ is_Some (Author.date_of_birth author') ∧ is_Some (Author.date_of_death author'))
  ∧ (∃ book',
       books (update_book 1 illustrated_dune library_store).2 !! 1 = Some book'
       ∧ is_Some (Book.author book') ∧ is_Some (Book.language book'))
  ∧ (∃ bookinstance',
       bookinstances
         (update_bookinstance (F := example_framework) example_token
            (with_borrower (Some 0)) library_store).2 !! example_uuid
       = Some bookinstance'
       ∧ is_Some (BookInstance.due_back bookinstance')).
Proof.
  destruct update_cannot_clear_optional_fields as (Hauthor & Hbook & Hinstance).
  assert (Huuid : uuid_UUID (Framework := example_framework) example_token
                  = Some example_uuid) by (vm_compute; reflexivity).
  split; [|split].
  - destruct (Hauthor 1 rename_author library_store _ eq_refl)
      as (author' & Hstored & Hbirth & Hdeath).
    exists author'.
    exact (conj Hstored (conj (Hbirth (mk_is_Some _ _ eq_refl))
                              (Hdeath (mk_is_Some _ _ eq_refl)))).
  - destruct (Hbook 1 illustrated_dune library_store dune_row eq_refl)
      as (book' & Hstored & Hwriter & Hlang).
    exists book'.
    exact (conj Hstored (conj (Hwriter (mk_is_Some _ _ eq_refl))
                              (Hlang (mk_is_Some _ _ eq_refl)))).
  - destruct (Hinstance example_framework example_token example_uuid
                (with_borrower (Some 0)) library_store on_loan Huuid eq_refl)
      as (row' & Hstored & Hdue).
    exists row'. exact (conj Hstored (Hdue (mk_is_Some _ _ eq_refl))).
Defined.

Lemma create_then_delete_bookinstance_witness :
  delete_bookinstance (F := example_framework) second_token
    (create_bookinstance 42%N (second_copy 1 (Some 2)) library_store).2
  = ((204, NoContent), library_store).
Proof.
  assert (Hsecond : uuid_UUID (Framework := example_framework) second_token = Some 42%N)
    by (vm_compute; reflexivity).
  exact (create_then_delete_bookinstance (F := example_framework) 42%N second_token
           (second_copy 1 (Some 2)) library_store Hsecond eq_refl eq_refl).
Defined.

Lemma create_then_delete_genre_witness :
  ∃ genre_id,
    (create_genre (GenreCreateSchema.Build "Western") library_store).1
    = (201, GenreOut genre_id (Genre.Build "Western"))
    ∧ delete_genre genre_id (create_genre (GenreCreateSchema.Build "Western") library_store).2
      = ((204, NoContent), library_store).
Proof.
  exact (create_then_delete_genre (GenreCreateSchema.Build "Western") library_store
           library_store_consistent).
Defined.
